(** * Chimera core: context engine and orchestrator

    A shallow embedding of [chimera_core/context_engine.py],
    [chimera_core/orchestrator.py], the four memory managers under
    [chimera_core/memory/] and the provider layer under
    [chimera_core/providers/], followed by the properties of the
    specification that concern them.

    Conventions.
    - Python text is a [string]; [len], slicing and [strip] work on its
      characters.
    - A method that may raise returns a [res]; the stores and the call log
      are threaded through every method as a [world].
    - What the outside world answers (the databases, the model vendors, the
      standard [json] module, the plugin registry) is read from an [env]. *)

From Stdlib Require Import String Ascii ZArith Lia.
From stdpp Require Import gmap strings list.

Local Open Scope string_scope.
Local Open Scope Z_scope.
Local Open Scope list_scope.
Set Warnings "-register-all,-clear-no-such-hyp".

(** ** Python text *)

Module PyStr.

Definition nl : string := String (ascii_of_nat 10) EmptyString.

(** [str.isspace] on one character (code points below 256). *)
Definition isspace (c : ascii) : bool :=
  let n := nat_of_ascii c in
  ((9 <=? n)%nat && (n <=? 13)%nat)
  || ((28 <=? n)%nat && (n <=? 32)%nat)
  || (n =? 133)%nat || (n =? 160)%nat.

Definition is_empty (s : string) : bool :=
  match s with EmptyString => true | String _ _ => false end.

Fixpoint lstrip (s : string) : string :=
  match s with
  | EmptyString => EmptyString
  | String c s' => if isspace c then lstrip s' else s
  end.

Fixpoint rstrip (s : string) : string :=
  match s with
  | EmptyString => EmptyString
  | String c s' =>
      let r := rstrip s' in
      if isspace c && is_empty r then EmptyString else String c r
  end.

(** [s.strip()] *)
Definition strip (s : string) : string := rstrip (lstrip s).

(** [s.startswith(c)] for a one-character prefix. *)
Definition startswith_char (c : ascii) (s : string) : bool :=
  match s with
  | String c' _ => if ascii_dec c c' then true else false
  | EmptyString => false
  end.

(** [len(s)] *)
Definition len (s : string) : nat := String.length s.

(** [s[:n]] *)
Fixpoint take (n : nat) (s : string) : string :=
  match n, s with
  | O, _ => EmptyString
  | S n', String c s' => String c (take n' s')
  | S _, EmptyString => EmptyString
  end.

(** [sep.join(parts)] *)
Fixpoint join (sep : string) (parts : list string) : string :=
  match parts with
  | [] => EmptyString
  | [p] => p
  | p :: rest => p +:+ sep +:+ join sep rest
  end.

End PyStr.

(** ** Insertion-ordered dictionaries

    [dict] keeps its keys in insertion order; assigning to a key that is
    already present keeps the key where it is. *)

Module PyDict.
Section Dict.
Context {K V : Type} `{EqDecision K}.

Definition dict := list (K * V).

Definition contains (k : K) (d : dict) : bool :=
  bool_decide (k ∈ d.*1).

(** [d[k] = v] *)
Fixpoint setitem (k : K) (v : V) (d : dict) : dict :=
  match d with
  | [] => [(k, v)]
  | (k', v') :: d' =>
      if decide (k = k') then (k', v) :: d' else (k', v') :: setitem k v d'
  end.

(** [dict.fromkeys(xs)]: every key of [xs] in turn, value [None]. *)
Definition fromkeys (none : V) (xs : list K) : dict :=
  fold_left (fun d k => setitem k none d) xs [].

(** [list(d)] *)
Definition keys (d : dict) : list K := d.*1.
End Dict.
End PyDict.

(** ** Redis lists

    [LRANGE] and [LTRIM] take inclusive, possibly negative indices. *)

Module RedisList.
Section Range.
Context {A : Type}.

Definition norm_start (n : Z) (i : Z) : Z :=
  let i := if i <? 0 then n + i else i in
  if i <? 0 then 0 else i.

Definition norm_stop (n : Z) (i : Z) : Z :=
  let i := if i <? 0 then n + i else i in
  if n <=? i then n - 1 else i.

Definition lrange (l : list A) (start stop : Z) : list A :=
  let n := Z.of_nat (length l) in
  let a := norm_start n start in
  let b := norm_stop n stop in
  if (b <? a) || (n <=? a) then []
  else take (Z.to_nat (b - a + 1)) (drop (Z.to_nat a) l).

(** [LTRIM key start stop] keeps exactly what [LRANGE] would return. *)
Definition ltrim (l : list A) (start stop : Z) : list A :=
  lrange l start stop.
End Range.
End RedisList.

(** ** Exceptions, results and the shared world *)

(** The exception classes the handlers of the program tell apart. Every one
    of them is an [Exception]. *)
Inductive exn : Type :=
  | SqliteError          (* sqlite3.Error and its subclasses *)
  | RedisError           (* redis.exceptions.RedisError and its subclasses *)
  | JSONDecodeError      (* json.JSONDecodeError *)
  | AttributeError
  | TypeError
  | OtherError.          (* any other Exception *)

#[global] Instance exn_eq_dec : EqDecision exn.
Proof. solve_decision. Defined.

(** What running a method gives: a value, a raised exception, or [Fuel]
    when the unbounded tool loop was cut off by the bound of the model. *)
Inductive res (A : Type) : Type :=
  | Ret (a : A)
  | Raise (e : exn)
  | Fuel.
Arguments Ret {A} a.
Arguments Raise {A} e.
Arguments Fuel {A}.

(** A turn as it is pushed to Redis: [{"role": ..., "content": ...}]. The
    content is [None] when the model sent no text. *)
Record turn : Type := Turn { role : string; content : option string }.

#[global] Instance turn_eq_dec : EqDecision turn.
Proof. solve_decision. Defined.

Record chroma_doc : Type := ChromaDoc {
  doc_id : string;
  doc_session : string;
  doc_text : option string;
  doc_role : string
}.

Record graph_message : Type := GraphMessage {
  gm_session : string;
  gm_turn_id : string;
  gm_role : string;
  gm_text : option string;
  gm_mentions : list string
}.

(** [Orchestrator.llm_config]; the temperature is kept as written in the
    request, no arithmetic is done on it. *)
Record llm_config : Type := LLMConfig {
  provider_name : string;
  model_name : string;
  temperature : string;
  max_tokens : Z
}.

(** The two provider classes of [chimera_core/providers/]. *)
Inductive provider_class : Type := OpenAIProvider | GeminiProvider.

#[global] Instance provider_class_eq_dec : EqDecision provider_class.
Proof. solve_decision. Defined.

(** A provider instance: its class and the model it was built with. *)
Definition instance : Type := (provider_class * string)%type.

(** The request sent with [generate_response]: the prompt template with its
    holes filled (the fixed wording of the templates is left out), or the
    round of the conversation with the chat model. *)
Inductive request : Type :=
  | Extraction (text : string)
  | Synthesis (text_to_summarize : string)
  | Summarization (previous_summary_text conversation_text : string)
  | Chat (round : nat).

Record tool_call : Type := ToolCall {
  tc_id : string;
  tc_name : string;
  tc_arguments : string
}.

(** Calls made on the managers, the provider factory and the providers, in
    the order they are made. *)
Inductive call : Type :=
  | SqlGetSummary (sid : string)
  | SqlUpdateSummary (sid summary : string) (turn_count : nat)
  | SqlDeleteSession (sid : string)
  | RedisAddTurn (sid : string) (t : turn)
  | RedisGetRecentTurns (sid : string) (num_turns : Z)
  | RedisTrimHistory (sid : string) (max_len : Z)
  | RedisDeleteHistory (sid : string)
  | RedisLLen (sid : string)
  | ChromaAddEntry (sid : string) (text : option string) (turn_id role : string)
  | ChromaSearchSimilar (query : string) (n_results : nat) (sid : string)
  | ChromaDeleteEntries (sid : string)
  | NeoAddMessage (sid turn_id role : string) (text : option string)
      (entities : list string)
  | NeoRelatedEntities (entity sid : string) (limit : nat)
  | NeoDeleteGraph (sid : string)
  | GetProvider (name model : string)
  | GenerateResponse (p : instance) (r : request)
  | ExecuteTool (plugin tool : string).

Record world : Type := World {
  turns : gmap string (list turn);            (* Redis lists, by session *)
  summaries : gmap string (string * nat);     (* SQLite table sessions *)
  session_info : gmap string string;          (* SQLite table session_info *)
  documents : list chroma_doc;                (* Chroma collection *)
  graph_sessions : list string;               (* Neo4j :Session nodes *)
  graph_messages : list graph_message;        (* Neo4j :Message nodes *)
  loaded_instances : list (string * string);  (* ApiManager.loaded_instances *)
  config : llm_config;                        (* Orchestrator.llm_config *)
  calls : list call
}.

(** ** The environment *)

Inductive json : Type :=
  | JNull
  | JBool (b : bool)
  | JNumber (n : Z)
  | JString (s : string)
  | JArray (items : list json)
  | JObject (members : list (string * json)).

Inductive sql_method : Type := MGetSummary | MUpdateSummary | MDeleteSession.

(** The places where a backend library is called and may raise. *)
Inductive site : Type :=
  | SqlConnect (m : sql_method)
  | SqlExecute (m : sql_method)
  | RedisRPush (t : turn)
  | RedisLRange
  | RedisLTrim
  | RedisDel
  | RedisLLenCmd
  | ChromaAdd
  | ChromaQuery (query : string)
  | ChromaDelete
  | NeoWrite (turn_id : string)
  | NeoQuery (entity : string)
  | NeoDelete.

#[global] Instance sql_method_eq_dec : EqDecision sql_method.
Proof. solve_decision. Defined.

#[global] Instance site_eq_dec : EqDecision site.
Proof. solve_decision. Defined.

(** What the vendor API answers to one request: a completion (text and
    requested tool calls), or an error: [openai.APIError] when [api_error],
    another exception otherwise, with the text [str(e)]. *)
Inductive api_reply : Type :=
  | Completion (text : option string) (tool_calls : list tool_call)
  | ApiFails (api_error : bool) (msg : string).

Record env : Type := Env {
  (* what start-up left behind *)
  registered : provider_class -> bool;      (* ApiManager.providers *)
  provider_init : provider_class -> option exn;
  redis_client : bool;                      (* RedisManager.client *)
  chroma_collection : bool;                 (* ChromaManager.collection *)
  neo4j_manager : bool;                     (* ContextEngine.neo4j_manager *)
  neo4j_driver : bool;                      (* Neo4jManager.driver *)
  (* the backends *)
  fault : site -> option exn;
  api : instance -> request -> api_reply;
  chroma_hits : string -> list string;
  neo4j_related : string -> list string;
  (* libraries and registries *)
  json_loads : string -> option json;
  intent : string -> option string;         (* PersonalityEngine *)
  all_tools : list string;
  find_plugin_for_tool : string -> option string;
  run_tool : string -> string -> list (string * json) -> string;
  uuid_user : string;
  uuid_assistant : string
}.

(** ** State and exceptions *)

Definition M (A : Type) : Type := world -> res A * world.

Definition ret {A} (a : A) : M A := fun w => (Ret a, w).

Definition raise {A} (e : exn) : M A := fun w => (Raise e, w).

Definition out_of_fuel {A} : M A := fun w => (Fuel, w).

Definition bind {A B} (m : M A) (k : A -> M B) : M B :=
  fun w =>
    match m w with
    | (Ret a, w') => k a w'
    | (Raise e, w') => (Raise e, w')
    | (Fuel, w') => (Fuel, w')
    end.

Notation "x <- m ;; k" := (bind m (fun x => k))
  (at level 100, m at next level, right associativity).
Notation "m ;;; k" := (bind m (fun _ => k))
  (at level 100, right associativity).

(** [try: m except <classes caught>: h]. What was written before the
    exception stays written. *)
Definition try_except {A} (m : M A) (caught : exn -> bool) (h : exn -> M A)
  : M A :=
  fun w =>
    match m w with
    | (Raise e, w') => if caught e then h e w' else (Raise e, w')
    | r => r
    end.

Definition any_exception (e : exn) : bool := true.
Definition is_sqlite_error (e : exn) : bool := bool_decide (e = SqliteError).
Definition is_redis_error (e : exn) : bool := bool_decide (e = RedisError).
Definition is_json_error (e : exn) : bool := bool_decide (e = JSONDecodeError).

Definition get_world : M world := fun w => (Ret w, w).

Definition log (c : call) : M unit :=
  fun w =>
    (Ret tt,
     World (turns w) (summaries w) (session_info w) (documents w)
       (graph_sessions w) (graph_messages w) (loaded_instances w) (config w)
       (calls w ++ [c])).

(** The backend call at site [s]: raises what the environment says. *)
Definition backend (E : env) (s : site) : M unit :=
  match fault E s with
  | Some e => raise e
  | None => ret tt
  end.

Definition set_turns (f : gmap string (list turn) -> gmap string (list turn))
  : M unit :=
  fun w =>
    (Ret tt,
     World (f (turns w)) (summaries w) (session_info w) (documents w)
       (graph_sessions w) (graph_messages w) (loaded_instances w) (config w)
       (calls w)).

Definition set_sqlite
  (f : gmap string (string * nat) -> gmap string (string * nat))
  (g : gmap string string -> gmap string string) : M unit :=
  fun w =>
    (Ret tt,
     World (turns w) (f (summaries w)) (g (session_info w)) (documents w)
       (graph_sessions w) (graph_messages w) (loaded_instances w) (config w)
       (calls w)).

Definition set_documents (f : list chroma_doc -> list chroma_doc) : M unit :=
  fun w =>
    (Ret tt,
     World (turns w) (summaries w) (session_info w) (f (documents w))
       (graph_sessions w) (graph_messages w) (loaded_instances w) (config w)
       (calls w)).

Definition set_graph (f : list string -> list string)
  (g : list graph_message -> list graph_message) : M unit :=
  fun w =>
    (Ret tt,
     World (turns w) (summaries w) (session_info w) (documents w)
       (f (graph_sessions w)) (g (graph_messages w)) (loaded_instances w)
       (config w) (calls w)).

Definition set_loaded_instances
  (f : list (string * string) -> list (string * string)) : M unit :=
  fun w =>
    (Ret tt,
     World (turns w) (summaries w) (session_info w) (documents w)
       (graph_sessions w) (graph_messages w) (f (loaded_instances w))
       (config w) (calls w)).

Definition set_config (c : llm_config) : M unit :=
  fun w =>
    (Ret tt,
     World (turns w) (summaries w) (session_info w) (documents w)
       (graph_sessions w) (graph_messages w) (loaded_instances w) c
       (calls w)).

(** ** memory/sqlite_manager.py *)

Module SQLiteManager.

(** [_get_connection]: logs and raises again whatever [connect] raised. *)
Definition _get_connection (E : env) (m : sql_method) : M unit :=
  backend E (SqlConnect m).

Definition update_summary (E : env) (session_id summary : string)
    (turn_count : nat) : M unit :=
  log (SqlUpdateSummary session_id summary turn_count) ;;;
  _get_connection E MUpdateSummary ;;;
  try_except
    (backend E (SqlExecute MUpdateSummary) ;;;
     set_sqlite (fun t => <[session_id := (summary, turn_count)]> t)
                (fun t => t))
    is_sqlite_error
    (fun _ => ret tt).

Definition get_summary (E : env) (session_id : string)
  : M (option (string * nat)) :=
  log (SqlGetSummary session_id) ;;;
  _get_connection E MGetSummary ;;;
  try_except
    (backend E (SqlExecute MGetSummary) ;;;
     w <- get_world ;;
     ret (summaries w !! session_id))
    is_sqlite_error
    (fun _ => ret None).

(** Both [DELETE]s run in one transaction: they are committed together or
    not at all. *)
Definition delete_session (E : env) (session_id : string) : M bool :=
  log (SqlDeleteSession session_id) ;;;
  _get_connection E MDeleteSession ;;;
  try_except
    (backend E (SqlExecute MDeleteSession) ;;;
     set_sqlite (fun t => delete session_id t)
                (fun t => delete session_id t) ;;;
     ret true)
    is_sqlite_error
    (fun _ => ret false).

End SQLiteManager.

(** ** memory/redis_manager.py

    A turn is stored as [json.dumps(turn_data)] and read back with
    [json.loads]; the list is kept as the turns themselves. *)

Module RedisManager.

Definition stored (w : world) (session_id : string) : list turn :=
  default [] (turns w !! session_id).

Definition add_turn (E : env) (session_id : string) (turn_data : turn)
  : M unit :=
  log (RedisAddTurn session_id turn_data) ;;;
  if negb (redis_client E) then ret tt
  else
    try_except
      (backend E (RedisRPush turn_data) ;;;
       w <- get_world ;;
       set_turns (fun t => <[session_id := stored w session_id ++ [turn_data]]> t))
      is_redis_error
      (fun _ => ret tt).

Definition get_recent_turns (E : env) (session_id : string) (num_turns : Z)
  : M (list turn) :=
  log (RedisGetRecentTurns session_id num_turns) ;;;
  if negb (redis_client E) then ret []
  else
    try_except
      (backend E RedisLRange ;;;
       w <- get_world ;;
       ret (RedisList.lrange (stored w session_id) (- num_turns) (-1)))
      is_redis_error
      (fun _ => ret []).

Definition delete_session_history (E : env) (session_id : string) : M unit :=
  log (RedisDeleteHistory session_id) ;;;
  if negb (redis_client E) then ret tt
  else
    try_except
      (backend E RedisDel ;;;
       set_turns (fun t => delete session_id t))
      is_redis_error
      (fun _ => ret tt).

(** [LTRIM] removes the key when nothing is left of the list. *)
Definition trim_history (E : env) (session_id : string) (max_len : Z)
  : M unit :=
  log (RedisTrimHistory session_id max_len) ;;;
  if negb (redis_client E) then ret tt
  else
    try_except
      (backend E RedisLTrim ;;;
       w <- get_world ;;
       let kept := RedisList.ltrim (stored w session_id) (- max_len) (-1) in
       set_turns (fun t =>
         match kept with
         | [] => delete session_id t
         | _ => <[session_id := kept]> t
         end))
      is_redis_error
      (fun _ => ret tt).

(** [client.llen(key)], called on the client directly by the orchestrator:
    no guard, no handler. *)
Definition client_llen (E : env) (session_id : string) : M nat :=
  log (RedisLLen session_id) ;;;
  if negb (redis_client E) then raise AttributeError
  else
    backend E RedisLLenCmd ;;;
    w <- get_world ;;
    ret (length (stored w session_id)).

End RedisManager.

(** ** memory/chroma_manager.py *)

Module ChromaManager.

Definition add_entry (E : env) (session_id : string)
    (text_content : option string) (turn_id role : string) : M unit :=
  log (ChromaAddEntry session_id text_content turn_id role) ;;;
  if negb (chroma_collection E) then ret tt
  else
    try_except
      (backend E ChromaAdd ;;;
       set_documents (fun d =>
         d ++ [ChromaDoc turn_id session_id text_content role]))
      any_exception
      (fun _ => ret tt).

(** Returns [None] for the empty list the method gives back when the
    collection is missing or the query failed, and the documents found for
    the one query text otherwise. *)
Definition search_similar (E : env) (query_text : string) (n_results : nat)
    (filter_by_session : string) : M (option (list string)) :=
  log (ChromaSearchSimilar query_text n_results filter_by_session) ;;;
  if negb (chroma_collection E) then ret None
  else
    try_except
      (backend E (ChromaQuery query_text) ;;;
       ret (Some (take n_results (chroma_hits E query_text))))
      any_exception
      (fun _ => ret None).

Definition delete_session_entries (E : env) (session_id : string) : M unit :=
  log (ChromaDeleteEntries session_id) ;;;
  if negb (chroma_collection E) then ret tt
  else
    try_except
      (backend E ChromaDelete ;;;
       set_documents (fun d =>
         filter (fun x => doc_session x ≠ session_id) d))
      any_exception
      (fun _ => ret tt).

End ChromaManager.

(** ** memory/neo4j_manager.py *)

Module Neo4jManager.

(** [_create_message_and_link_entities]: both statements start from a
    [MATCH], so nothing is written for a session without a [:Session]
    node; a message is merged on (session, turn id). *)
Definition _create_message_and_link_entities
    (session_id turn_id role : string) (text : option string)
    (entities : list string) (sessions : list string)
    (ms : list graph_message) : list graph_message :=
  if bool_decide (session_id ∈ sessions) then
    filter (fun m => ¬ (gm_session m = session_id ∧ gm_turn_id m = turn_id)) ms
    ++ [GraphMessage session_id turn_id role text entities]
  else ms.

Definition add_message_and_entities (E : env)
    (session_id turn_id role : string) (text : option string)
    (entities : list string) : M unit :=
  log (NeoAddMessage session_id turn_id role text entities) ;;;
  if negb (neo4j_driver E) then ret tt
  else
    try_except
      (backend E (NeoWrite turn_id) ;;;
       w <- get_world ;;
       set_graph (fun s => s)
         (_create_message_and_link_entities session_id turn_id role text
            entities (graph_sessions w)))
      any_exception
      (fun _ => ret tt).

Definition get_related_entities (E : env) (entity_name session_id : string)
    (limit : nat) : M (list string) :=
  log (NeoRelatedEntities entity_name session_id limit) ;;;
  if negb (neo4j_driver E) then ret []
  else
    try_except
      (backend E (NeoQuery entity_name) ;;;
       ret (take limit (neo4j_related E entity_name)))
      any_exception
      (fun _ => ret []).

(** [_delete_session_graph_tx]: the session node and its messages. *)
Definition delete_session_graph (E : env) (session_id : string) : M unit :=
  log (NeoDeleteGraph session_id) ;;;
  if negb (neo4j_driver E) then ret tt
  else
    try_except
      (backend E NeoDelete ;;;
       w <- get_world ;;
       if bool_decide (session_id ∈ graph_sessions w) then
         set_graph (fun s => filter (fun x => x ≠ session_id) s)
                   (fun ms => filter (fun m => gm_session m ≠ session_id) ms)
       else ret tt)
      any_exception
      (fun _ => ret tt).

End Neo4jManager.

(** ** providers/ *)

(** The prompt argument of [generate_response]. A filled template is never
    empty; the user's text may be. *)
Inductive prompt : Type :=
  | Template (r : request)
  | UserText (s : string)
  | NoPrompt.

Definition truthy_prompt (p : prompt) : bool :=
  match p with
  | Template _ => true
  | UserText s => negb (PyStr.is_empty s)
  | NoPrompt => false
  end.

(** What a provider hands back: the message object of the OpenAI client, or
    the plain dictionary [GeminiProvider] builds. *)
Inductive response : Type :=
  | Message (msg_content : option string) (msg_tool_calls : list tool_call)
  | Dict (d_role d_content : string).

(** Entries of the conversation state sent to the chat model. *)
Inductive hist_entry : Type :=
  | HSystem (system_prompt : string)
  | HTurn (t : turn)
  | HUser (p : prompt)
  | HModelDump (r : response)
  | HTool (tool_call_id name result : string).

(** [response.content] and [response.tool_calls]: attributes of the message
    object, absent from a dictionary. *)
Definition attr_content (r : response) : M (option string) :=
  match r with
  | Message c _ => ret c
  | Dict _ _ => raise AttributeError
  end.

Definition attr_tool_calls (r : response) : M (list tool_call) :=
  match r with
  | Message _ tcs => ret tcs
  | Dict _ _ => raise AttributeError
  end.

(** [x.strip()] where [x] may be [None]. *)
Definition method_strip (x : option string) : M string :=
  match x with
  | Some s => ret (PyStr.strip s)
  | None => raise AttributeError
  end.

(** [f"{x}"] *)
Definition py_format (x : option string) : string := default "None" x.

Module ApiManager.

(** [_discover_providers] files each class under the name its own
    [get_provider_name] returns. *)
Definition providers (E : env) (name : string) : option provider_class :=
  if String.eqb name "openai" then
    if registered E OpenAIProvider then Some OpenAIProvider else None
  else if String.eqb name "gemini" then
    if registered E GeminiProvider then Some GeminiProvider else None
  else None.

Definition get_provider (E : env) (name model : string)
  : M (option instance) :=
  log (GetProvider name model) ;;;
  match providers E name with
  | None => ret None
  | Some provider_class =>
      w <- get_world ;;
      if bool_decide ((name, model) ∈ loaded_instances w) then
        ret (Some (provider_class, model))
      else
        match provider_init E provider_class with
        | Some _ => ret None
        | None =>
            set_loaded_instances (fun l => l ++ [(name, model)]) ;;;
            ret (Some (provider_class, model))
        end
  end.

End ApiManager.

Module Provider.

(** [OpenAIProvider.generate_response]: [messages] is the caller's list,
    the prompt is appended to it in place; every exception of the API call
    becomes a message carrying the error text.
    [GeminiProvider.generate_response]: builds its own history and returns
    a dictionary, also for an error. *)
Definition generate_response (E : env) (p : instance) (r : request)
    (pr : prompt) (history : list hist_entry)
  : M (response * list hist_entry) :=
  log (GenerateResponse p r) ;;;
  match fst p with
  | OpenAIProvider =>
      let messages :=
        if truthy_prompt pr then history ++ [HUser pr] else history in
      match api E p r with
      | Completion text tool_calls => ret (Message text tool_calls, messages)
      | ApiFails true msg =>
          ret (Message (Some ("Error de OpenAI: " +:+ msg)) [], messages)
      | ApiFails false msg =>
          ret (Message (Some ("Error inesperado: " +:+ msg)) [], messages)
      end
  | GeminiProvider =>
      match api E p r with
      | Completion (Some text) _ => ret (Dict "assistant" text, history)
      | Completion None _ =>
          ret (Dict "assistant" "Error de Gemini: ", history)
      | ApiFails _ msg =>
          ret (Dict "assistant" ("Error de Gemini: " +:+ msg), history)
      end
  end.

End Provider.

(** ** context_engine.py *)

Fixpoint for_each {A B} (xs : list A) (acc : B) (body : B -> A -> M B)
  : M B :=
  match xs with
  | [] => ret acc
  | x :: xs' => acc' <- body acc x ;; for_each xs' acc' body
  end.

Definition json_string (j : json) : option string :=
  match j with JString s => Some s | _ => None end.

Definition is_json_string (j : json) : bool :=
  match j with JString _ => true | _ => false end.

Record augmented : Type := Augmented {
  system_prompt : string;
  history : list turn;
  tools : list string;
  entities : list string
}.

Module ContextEngine.

Definition _extract_entities_with_gpt (E : env) (user_prompt : string)
  : M (list string) :=
  provider <- ApiManager.get_provider E "openai" "gpt-3.5-turbo" ;;
  match provider with
  | None => ret []
  | Some provider =>
      try_except
        (try_except
           (rh <- Provider.generate_response E provider
                    (Extraction user_prompt)
                    (Template (Extraction user_prompt)) [] ;;
            c <- attr_content (fst rh) ;;
            entities_json <- method_strip c ;;
            if PyStr.is_empty entities_json
               || negb (PyStr.startswith_char "[" entities_json)
            then ret []
            else
              match json_loads E entities_json with
              | None => raise JSONDecodeError
              | Some (JArray items) =>
                  if forallb is_json_string items
                  then ret (omap json_string items)
                  else ret []
              | Some _ => ret []
              end)
           is_json_error
           (fun _ => ret []))
        any_exception
        (fun _ => ret [])
  end.

Definition _synthesize_context_with_gpt (E : env)
    (combined_snippets : list string) : M string :=
  match combined_snippets with
  | [] => ret ""
  | _ =>
      let text_to_summarize := PyStr.join PyStr.nl combined_snippets in
      provider <- ApiManager.get_provider E "openai" "gpt-3.5-turbo" ;;
      match provider with
      | None => ret ""
      | Some provider =>
          try_except
            (rh <- Provider.generate_response E provider
                     (Synthesis text_to_summarize)
                     (Template (Synthesis text_to_summarize)) [] ;;
             c <- attr_content (fst rh) ;;
             method_strip c)
            any_exception
            (fun _ => ret "")
      end
  end.

(** [[doc[:300] + "..." if len(doc) > 300 else doc for doc in chroma_results]] *)
Definition truncated_results (chroma_results : list string) : list string :=
  map (fun doc =>
         if (300 <? PyStr.len doc)%nat then PyStr.take 300 doc +:+ "..."
         else doc)
      chroma_results.

(** [list(dict.fromkeys(relevant_context_snippets))] *)
Definition unique_snippets (relevant_context_snippets : list string)
  : list string :=
  PyDict.keys (PyDict.fromkeys tt relevant_context_snippets).

(** The similarity search of [build_augmented_prompt], one query per
    entity. *)
Definition search_chroma (E : env) (session_id : string)
    (entity_names : list string) (snippets : list string)
  : M (list string) :=
  for_each entity_names snippets (fun snippets entity_name =>
    let search_query :=
      "¿Qué información relevante hay sobre " +:+ entity_name +:+ "?" in
    similar_memories <-
      ChromaManager.search_similar E search_query 5 session_id ;;
    match similar_memories with
    | Some (doc :: docs) => ret (snippets ++ truncated_results (doc :: docs))
    | _ => ret snippets
    end).

(** The graph search of [build_augmented_prompt]: one sentence per entity
    that has related terms, all of them in one snippet. *)
Definition search_neo4j (E : env) (session_id : string)
    (entity_names : list string) (snippets : list string)
  : M (list string) :=
  if neo4j_manager E then
    structural_info_parts <-
      for_each entity_names [] (fun parts entity_name =>
        related_concepts <-
          Neo4jManager.get_related_entities E entity_name session_id 5 ;;
        match related_concepts with
        | [] => ret parts
        | _ =>
            ret (parts ++
                 ["Sobre el concepto '" +:+ entity_name
                  +:+ "', el sistema también conoce estos temas relacionados: "
                  +:+ PyStr.join ", " related_concepts +:+ "."])
        end) ;;
    match structural_info_parts with
    | [] => ret snippets
    | _ => ret (snippets ++ [PyStr.join " " structural_info_parts])
    end
  else ret snippets.

(** Steps 0 to 3 of [build_augmented_prompt]: the candidate snippets and
    the entities. *)
Definition relevant_context_snippets (E : env)
    (session_id user_prompt : string) : M (list string * list string) :=
  summary <- SQLiteManager.get_summary E session_id ;;
  let snippets :=
    match summary with
    | Some (summary_text, _) =>
        if PyStr.is_empty summary_text then [] else [summary_text]
    | None => []
    end in
  entity_names <- _extract_entities_with_gpt E user_prompt ;;
  match entity_names with
  | [] => ret (snippets, entity_names)
  | _ =>
      snippets <- search_chroma E session_id entity_names snippets ;;
      snippets <- search_neo4j E session_id entity_names snippets ;;
      ret (snippets, entity_names)
  end.

Definition _translate_directives_to_prompt (directives : option string)
  : string :=
  match directives with
  | Some i =>
      if String.eqb i "pregunta conceptual o técnica" then
        "El usuario ha hecho una pregunta técnica. Sé preciso y detallado en tu respuesta."
      else if String.eqb i "broma o comentario humorístico" then
        "El usuario está de humor para bromas. Responde de una manera ligera y divertida."
      else ""
  | None => ""
  end.

Definition build_augmented_prompt (E : env) (session_id user_prompt : string)
    (personality_directives : option string) : M augmented :=
  se <- relevant_context_snippets E session_id user_prompt ;;
  let entity_names := snd se in
  let unique := unique_snippets (fst se) in
  final_context <-
    match unique with
    | [] => ret ""
    | _ =>
        synthesized_context <- _synthesize_context_with_gpt E unique ;;
        if PyStr.is_empty synthesized_context then ret ""
        else ret ("--- CONTEXTO DE MEMORIA A LARGO-MEDIO PLAZO ---"
                  +:+ PyStr.nl +:+ synthesized_context)
    end ;;
  let personality_instruction :=
    _translate_directives_to_prompt personality_directives in
  let tools := all_tools E in
  conversational_history <- RedisManager.get_recent_turns E session_id 10 ;;
  let system_prompt_parts :=
    [ "Eres Quimera, un asistente de IA avanzado.";
      personality_instruction;
      final_context;
      "Responde de manera útil y coherente..." ] in
  let final_system_prompt :=
    PyStr.join PyStr.nl
      (filter (fun s => PyStr.is_empty s = false) system_prompt_parts) in
  ret (Augmented final_system_prompt conversational_history tools
         entity_names).

Definition save_turn (E : env) (session_id user_prompt : string)
    (assistant_response : option string)
    (user_turn_id assistant_turn_id : string) (user_entities : list string)
  : M unit :=
  RedisManager.add_turn E session_id (Turn "user" (Some user_prompt)) ;;;
  RedisManager.add_turn E session_id (Turn "assistant" assistant_response) ;;;
  ChromaManager.add_entry E session_id assistant_response assistant_turn_id
    "assistant" ;;;
  if neo4j_manager E then
    assistant_entities <-
      _extract_entities_with_gpt E (py_format assistant_response) ;;
    Neo4jManager.add_message_and_entities E session_id user_turn_id "user"
      (Some user_prompt) user_entities ;;;
    Neo4jManager.add_message_and_entities E session_id assistant_turn_id
      "assistant" assistant_response assistant_entities
  else ret tt.

End ContextEngine.

(** ** orchestrator.py *)

(** What [handle_user_request] returns: [{"error": ...}], or
    [{"response": ...}] together with whether the summary task was handed to
    the background tasks. *)
Inductive outcome : Type :=
  | ErrorReply (error : string)
  | ResponseReply (response_text : option string) (summary_scheduled : bool).

Module Orchestrator.

Definition update_llm_settings (llm_settings : llm_config) : M unit :=
  set_config llm_settings.

(** One pass of [for tool_call in response_message.tool_calls]. The
    arguments are unpacked with [**] into a call of the bound method
    [execute_tool] that already names [plugin_name] and [tool_name]: a key
    equal to one of these or to [self] is a [TypeError]. *)
Definition run_tool_call (E : env) (api_history : list hist_entry)
    (tool_call : tool_call) : M (list hist_entry) :=
  let function_name := tc_name tool_call in
  let arguments :=
    match json_loads E (tc_arguments tool_call) with
    | Some j => j
    | None => JObject []
    end in
  match find_plugin_for_tool E function_name with
  | None => ret api_history
  | Some plugin_name =>
      match arguments with
      | JObject members =>
          if existsb (fun kv => String.eqb (fst kv) "self"
                                || String.eqb (fst kv) "plugin_name"
                                || String.eqb (fst kv) "tool_name") members
          then raise TypeError
          else
            log (ExecuteTool plugin_name function_name) ;;;
            ret (api_history ++
                 [HTool (tc_id tool_call) function_name
                    (run_tool E plugin_name function_name members)])
      | _ => raise TypeError
      end
  end.

(** [while response_message and response_message.tool_calls: ...]; the
    loop has no bound of its own, [fuel] bounds the rounds here. *)
Fixpoint tool_loop (E : env) (fuel : nat) (llm_provider : instance)
    (round : nat) (response_message : option response)
    (api_history : list hist_entry) : M (option response) :=
  match response_message with
  | None => ret None
  | Some message =>
      tool_calls <- attr_tool_calls message ;;
      match tool_calls with
      | [] => ret response_message
      | _ =>
          match fuel with
          | O => out_of_fuel
          | S fuel' =>
              api_history <-
                for_each tool_calls (api_history ++ [HModelDump message])
                  (run_tool_call E) ;;
              rh <- Provider.generate_response E llm_provider (Chat round)
                      NoPrompt api_history ;;
              tool_loop E fuel' llm_provider (S round) (Some (fst rh))
                (snd rh)
          end
      end
  end.

Definition handle_user_request (E : env) (fuel : nat)
    (session_id user_prompt : string) (llm_settings : llm_config)
  : M outcome :=
  update_llm_settings llm_settings ;;;
  let personality_directives := intent E user_prompt in
  augmented_context <-
    ContextEngine.build_augmented_prompt E session_id user_prompt
      personality_directives ;;
  let api_history :=
    HSystem (system_prompt augmented_context)
    :: map HTurn (history augmented_context) in
  w <- get_world ;;
  llm_provider <-
    ApiManager.get_provider E (provider_name (config w))
      (model_name (config w)) ;;
  match llm_provider with
  | None =>
      ret (ErrorReply ("Proveedor '" +:+ provider_name (config w)
                       +:+ "' no encontrado."))
  | Some llm_provider =>
      rh <- Provider.generate_response E llm_provider (Chat 0)
              (UserText user_prompt) api_history ;;
      response_message <-
        tool_loop E fuel llm_provider 1 (Some (fst rh)) (snd rh) ;;
      final_response_text <-
        match response_message with
        | Some message => attr_content message
        | None => ret (Some "No se recibió respuesta del LLM.")
        end ;;
      let user_turn_id := session_id +:+ "_" +:+ uuid_user E in
      let assistant_turn_id := session_id +:+ "_" +:+ uuid_assistant E in
      ContextEngine.save_turn E session_id user_prompt final_response_text
        user_turn_id assistant_turn_id (entities augmented_context) ;;;
      turn_count <- RedisManager.client_llen E session_id ;;
      ret (ResponseReply final_response_text (10 <? turn_count)%nat)
  end.

Definition _summarize_and_update_mid_term_memory (E : env)
    (session_id : string) : M unit :=
  all_turns <- RedisManager.get_recent_turns E session_id 0 ;;
  let num_turns_to_summarize := Z.of_nat (length all_turns) - 10 in
  if num_turns_to_summarize <=? 0 then ret tt
  else
    let turns_to_summarize :=
      take (Z.to_nat num_turns_to_summarize) all_turns in
    let conversation_text :=
      PyStr.join PyStr.nl
        (map (fun t => role t +:+ ": " +:+ py_format (content t))
             turns_to_summarize) in
    previous_summary <- SQLiteManager.get_summary E session_id ;;
    let previous_summary_text :=
      match previous_summary with
      | Some (text, _) => "Resumen anterior: " +:+ text
      | None => "Este es el primer resumen de la conversación."
      end in
    provider <- ApiManager.get_provider E "openai" "gpt-3.5-turbo" ;;
    match provider with
    | None => ret tt
    | Some provider =>
        try_except
          (rh <- Provider.generate_response E provider
                   (Summarization previous_summary_text conversation_text)
                   (Template (Summarization previous_summary_text
                                conversation_text)) [] ;;
           c <- attr_content (fst rh) ;;
           summary_text <- method_strip c ;;
           SQLiteManager.update_summary E session_id summary_text
             (length all_turns) ;;;
           RedisManager.trim_history E session_id 10)
          any_exception
          (fun _ => ret tt)
    end.

Definition delete_session_data (E : env) (session_id : string) : M bool :=
  try_except
    (SQLiteManager.delete_session E session_id ;;;
     RedisManager.delete_session_history E session_id ;;;
     ChromaManager.delete_session_entries E session_id ;;;
     (if neo4j_manager E
      then Neo4jManager.delete_session_graph E session_id
      else ret tt) ;;;
     ret true)
    any_exception
    (fun _ => ret false).

End Orchestrator.

(** ** Reading the call log *)

(** The calls made between two worlds of one run. *)
Definition new_calls (w w' : world) : list call :=
  drop (length (calls w)) (calls w').

Definition is_similarity_query (c : call) : bool :=
  match c with ChromaSearchSimilar _ _ _ => true | _ => false end.

Definition is_graph_query (c : call) : bool :=
  match c with NeoRelatedEntities _ _ _ => true | _ => false end.

Definition is_summary_fetch (sid : string) (c : call) : bool :=
  match c with SqlGetSummary s => String.eqb s sid | _ => false end.

(** Neither a query to the similarity index nor one to the graph. *)
Definition no_long_term_query (c : call) : Prop :=
  is_similarity_query c = false /\ is_graph_query c = false.

(** Calls that write a turn into one of the four tiers. *)
Definition is_turn_write (c : call) : bool :=
  match c with
  | RedisAddTurn _ _ | ChromaAddEntry _ _ _ _ | NeoAddMessage _ _ _ _ _
  | SqlUpdateSummary _ _ _ => true
  | _ => false
  end.

(** A round of the conversation with the chat model. *)
Definition is_chat_call (c : call) : bool :=
  match c with GenerateResponse _ (Chat _) => true | _ => false end.

Definition no_turn_write (c : call) : Prop := is_turn_write c = false.

Definition no_chat_call (c : call) : Prop := is_chat_call c = false.

(** A call that asks for, or talks to, a model provider. *)
Definition is_provider_call (c : call) : bool :=
  match c with
  | GetProvider _ _ | GenerateResponse _ _ => true
  | _ => false
  end.

(** The call is addressed to provider "openai" with model "gpt-3.5-turbo". *)
Definition addressed_to_gpt35 (c : call) : Prop :=
  match c with
  | GetProvider name model => name = "openai" ∧ model = "gpt-3.5-turbo"
  | GenerateResponse p _ => p = (OpenAIProvider, "gpt-3.5-turbo")
  | _ => True
  end.

(** ** Definitions that follow the wording of the specification *)

(** "Deduplicate by exact text equality, preserving first-occurrence order":
    going through the list, keep a text when no equal text was seen before
    it ([seen] holds what was met so far, in order). *)
Fixpoint first_occurrences_from (seen xs : list string) : list string :=
  match xs with
  | [] => []
  | x :: xs' =>
      if bool_decide (x ∈ seen) then first_occurrences_from seen xs'
      else x :: first_occurrences_from (seen ++ [x]) xs'
  end.

Definition first_occurrences (xs : list string) : list string :=
  first_occurrences_from [] xs.

(** What the similarity index answers for one entity of a request: the first
    five documents for the entity's query, nothing when the collection is
    missing or the query raised. *)
Definition similarity_hits (E : env) (entity_name : string) : list string :=
  let q := "¿Qué información relevante hay sobre " +:+ entity_name +:+ "?" in
  if chroma_collection E then
    match fault E (ChromaQuery q) with
    | None => take 5 (chroma_hits E q)
    | Some _ => []
    end
  else [].

(** Every call that [m] adds to the log satisfies [P], in whichever world it
    is run. *)
Definition emits {A} (m : M A) (P : call -> Prop) : Prop :=
  forall w, exists tr, calls (snd (m w)) = calls w ++ tr /\ Forall P tr.

(** The same, and every value [m] returns satisfies [Q]. *)
Definition yields {A} (m : M A) (P : call -> Prop) (Q : A -> Prop) : Prop :=
  forall w, exists tr,
    calls (snd (m w)) = calls w ++ tr /\ Forall P tr
    /\ forall a, fst (m w) = Ret a -> Q a.

Definition gpt35 : instance := (OpenAIProvider, "gpt-3.5-turbo").

(** "empty, not beginning with an array-opening token, not valid JSON, not
    a list, or holding a non-string element", said of the text [j] the
    extractor reads: the content of the response without its surrounding
    white space. *)
Definition invalid_entities_json (E : env) (j : string) : Prop :=
  j = ""
  \/ PyStr.startswith_char "[" j = false
  \/ json_loads E j = None
  \/ (exists v, json_loads E j = Some v /\ forall items, v <> JArray items)
  \/ (exists items, json_loads E j = Some (JArray items)
                   /\ exists x, x ∈ items /\ is_json_string x = false).

(** The cases in which the extractor must come back empty-handed: the model
    call failed, the response has no text, or its text is invalid. *)
Inductive extraction_violation (E : env) (text : string) : Prop :=
  | model_call_fails api_error msg :
      api E gpt35 (Extraction text) = ApiFails api_error msg ->
      extraction_violation E text
  | response_without_text tool_calls :
      api E gpt35 (Extraction text) = Completion None tool_calls ->
      extraction_violation E text
  | response_invalid s tool_calls :
      api E gpt35 (Extraction text) = Completion (Some s) tool_calls ->
      invalid_entities_json E (PyStr.strip s) ->
      extraction_violation E text.

(** What "the deletion of a tier succeeded" leaves behind for a session. *)
Definition relational_deleted (sid : string) (w : world) : Prop :=
  summaries w !! sid = None /\ session_info w !! sid = None.

Definition buffer_deleted (sid : string) (w : world) : Prop :=
  turns w !! sid = None.

Definition documents_deleted (sid : string) (w : world) : Prop :=
  Forall (fun d => doc_session d <> sid) (documents w).

Definition graph_deleted (sid : string) (w : world) : Prop :=
  (sid ∉ graph_sessions w)
  /\ Forall (fun m => gm_session m <> sid) (graph_messages w).

Definition all_tiers_deleted (sid : string) (w : world) : Prop :=
  relational_deleted sid w /\ buffer_deleted sid w
  /\ documents_deleted sid w /\ graph_deleted sid w.

(** An exception leaves [SQLiteManager.delete_session]: the connection could
    not be opened, or the statements raised something that is not a
    [sqlite3.Error]. *)
Definition sqlite_delete_raises (E : env) : Prop :=
  fault E (SqlConnect MDeleteSession) <> None
  \/ exists e, fault E (SqlExecute MDeleteSession) = Some e /\ e <> SqliteError.

(** An exception leaves [RedisManager.delete_session_history]: the client
    raised something that is not a [RedisError]. *)
Definition redis_delete_raises (E : env) : Prop :=
  redis_client E = true
  /\ exists e, fault E RedisDel = Some e /\ e <> RedisError.

(** No store operation of a summary run fails: the Redis client is there,
    and reading the buffer, reading and writing the summary and trimming the
    buffer raise nothing. *)
Definition summarizer_stores_ok (E : env) : Prop :=
  redis_client E = true
  /\ fault E RedisLRange = None
  /\ fault E (SqlConnect MGetSummary) = None
  /\ fault E (SqlExecute MGetSummary) = None
  /\ fault E (SqlConnect MUpdateSummary) = None
  /\ fault E (SqlExecute MUpdateSummary) = None
  /\ fault E RedisLTrim = None.

(** The summarization model call succeeds with the text [text]: the factory
    hands out the gpt-3.5 provider and the model answers with a text. *)
Definition summary_call_succeeds (E : env) (w : world) (text : string) : Prop :=
  registered E OpenAIProvider = true
  /\ (("openai", "gpt-3.5-turbo") ∈ loaded_instances w
      \/ provider_init E OpenAIProvider = None)
  /\ forall previous conversation, exists tool_calls,
       api E gpt35 (Summarization previous conversation)
       = Completion (Some text) tool_calls.

(** ** Worlds and environments for the examples *)

Definition empty_world : world :=
  World ∅ ∅ ∅ [] [] [] []
    (LLMConfig "openai" "gpt-4o-mini" "0.7" 1500) [].

(** Session "s" has a rolling summary and [buffer] as recent turns; it is
    known to SQLite, Chroma and Neo4j. *)
Definition session_world (buffer : list turn) (watermark : nat) : world :=
  World {["s" := buffer]} {["s" := ("resumen", watermark)]}
    {["s" := "charla"]}
    [ChromaDoc "s_1" "s" (Some "hola") "assistant"]
    ["s"]
    [GraphMessage "s" "s_1" "assistant" (Some "hola") []]
    []
    (LLMConfig "openai" "gpt-4o-mini" "0.7" 1500) [].

(** Session "s" with [n] recent turns and no rolling summary yet. *)
Definition buffer_world (n : nat) : world :=
  World {["s" := replicate n (Turn "user" (Some "hola"))]} ∅
    {["s" := "charla"]} [] ["s"] [] []
    (LLMConfig "openai" "gpt-4o-mini" "0.7" 1500) [].

(** Everything is up, nothing fails, the model answers [reply] to every
    request, and [json.loads] is the given decoder. *)
Definition env_up (reply : api_reply) (loads : string -> option json) : env :=
  {| registered := fun _ => true;
     provider_init := fun _ => None;
     redis_client := true;
     chroma_collection := true;
     neo4j_manager := true;
     neo4j_driver := true;
     fault := fun _ => None;
     api := fun _ _ => reply;
     chroma_hits := fun _ => [];
     neo4j_related := fun _ => [];
     json_loads := loads;
     intent := fun _ => None;
     all_tools := [];
     find_plugin_for_tool := fun _ => None;
     run_tool := fun _ _ _ => "{}";
     uuid_user := "u";
     uuid_assistant := "a" |}.

(** The same environment with the backend calls selected by [s] raising
    [e]. *)
Definition with_fault (s : site -> bool) (e : exn) (E : env) : env :=
  {| registered := registered E;
     provider_init := provider_init E;
     redis_client := redis_client E;
     chroma_collection := chroma_collection E;
     neo4j_manager := neo4j_manager E;
     neo4j_driver := neo4j_driver E;
     fault := fun x => if s x then Some e else fault E x;
     api := api E;
     chroma_hits := chroma_hits E;
     neo4j_related := neo4j_related E;
     json_loads := json_loads E;
     intent := intent E;
     all_tools := all_tools E;
     find_plugin_for_tool := find_plugin_for_tool E;
     run_tool := run_tool E;
     uuid_user := uuid_user E;
     uuid_assistant := uuid_assistant E |}.

(** The same environment with the backend call at site [s] raising [e]. *)
Definition fault_at (s : site) (e : exn) (E : env) : env :=
  with_fault (fun x => bool_decide (x = s)) e E.

(** A decoder for the examples: it knows two texts. *)
Definition toy_loads (s : string) : option json :=
  if String.eqb s "[]" then Some (JArray [])
  else if String.eqb s "[1]" then Some (JArray [JNumber 1])
  else None.

(** Everything is up; the chat model first asks for the tool "search" of
    plugin "knowledge_base", then answers "fin"; the internal calls get
    "[]". *)
Definition tool_env : env :=
  {| registered := fun _ => true;
     provider_init := fun _ => None;
     redis_client := true;
     chroma_collection := true;
     neo4j_manager := true;
     neo4j_driver := true;
     fault := fun _ => None;
     api := fun _ r =>
       match r with
       | Chat 0 => Completion None [ToolCall "call_1" "search" "{}"]
       | Chat _ => Completion (Some "fin") []
       | _ => Completion (Some "[]") []
       end;
     chroma_hits := fun _ => [];
     neo4j_related := fun _ => [];
     json_loads := toy_loads;
     intent := fun _ => None;
     all_tools := ["search"];
     find_plugin_for_tool := fun t =>
       if String.eqb t "search" then Some "knowledge_base" else None;
     run_tool := fun _ _ _ => "{}";
     uuid_user := "u";
     uuid_assistant := "a" |}.


(** ** What a method leaves alone *)

(** Running [m] never changes the part [proj] of the world. *)
Definition keeps {A X} (proj : world -> X) (m : M A) : Prop :=
  forall w, proj (snd (m w)) = proj w.

(** The content of the four memory tiers. *)
Definition tiers (w : world) :=
  (turns w, summaries w, session_info w, documents w, graph_sessions w,
   graph_messages w).

(** The two SQLite tables. *)
Definition relational (w : world) := (summaries w, session_info w).

(** What the four tiers hold for one session. *)
Definition session_slice (sid : string) (w : world) :=
  (turns w !! sid, summaries w !! sid, session_info w !! sid,
   filter (fun d => doc_session d = sid) (documents w),
   filter (fun s => s = sid) (graph_sessions w),
   filter (fun m => gm_session m = sid) (graph_messages w)).


(** The four tiers are up and none of the delete commands raises. *)
Definition deletion_stores_ok (E : env) : Prop :=
  fault E (SqlConnect MDeleteSession) = None
  /\ fault E (SqlExecute MDeleteSession) = None
  /\ redis_client E = true /\ fault E RedisDel = None
  /\ chroma_collection E = true /\ fault E ChromaDelete = None
  /\ neo4j_manager E = true /\ neo4j_driver E = true
  /\ fault E NeoDelete = None.

(** The factory can hand out the gpt-3.5 instance of the OpenAI provider:
    the class is registered and the instance is cached or can be built. *)
Definition gpt35_available (E : env) (w : world) : Prop :=
  registered E OpenAIProvider = true
  /\ (("openai", "gpt-3.5-turbo") ∈ loaded_instances w
      \/ provider_init E OpenAIProvider = None).

(** The message [OpenAIProvider.generate_response] returns for a reply of
    the API: the completion itself, or a message made of the error text. *)
Definition openai_message (reply : api_reply) : response :=
  match reply with
  | Completion text tool_calls => Message text tool_calls
  | ApiFails true msg => Message (Some ("Error de OpenAI: " +:+ msg)) []
  | ApiFails false msg => Message (Some ("Error inesperado: " +:+ msg)) []
  end.



(** The JSON text of a list with the one string "redis", and a decoder for
    the examples that knows this text only. *)
Definition redis_entities_json : string :=
  let quote := String (ascii_of_nat 34) EmptyString in
  "[" +:+ quote +:+ "redis" +:+ quote +:+ "]".

Definition entities_loads (s : string) : option json :=
  if String.eqb s redis_entities_json then Some (JArray [JString "redis"])
  else None.

(** [m] returns a value in whichever world it is run: it does not raise and
    it is not cut off. *)
Definition returns {A} (m : M A) : Prop :=
  forall w, exists a, fst (m w) = Ret a.

(** ** utils/logger.py *)

Module Logger.

Definition na : string := "N/A".

(** What the filter leaves on a record, and its verdict. The [trace_id] of
    a record is a string or [None]. *)
Record filtered : Type := Filtered {
  passes : bool;
  trace_id : option string;
  new_trace : bool
}.

(** [TraceChangeFilter.filter]. [record_trace_id] is the [trace_id]
    attribute of the record: absent ([None]) when the caller gave none
    through [extra], and otherwise the value given, which is a string or
    Python's [None] ([Some None]). [last] is the module-wide
    [_last_trace_id], [None] at start. *)
Definition filter (record_trace_id : option (option string))
    (last : option string) : filtered * option string :=
  let trace_id := default (Some na) record_trace_id in
  let is_new_trace :=
    negb (bool_decide (trace_id = Some na))
    && negb (bool_decide (trace_id = last)) in
  (Filtered true trace_id is_new_trace,
   if is_new_trace then trace_id else last).

(** The records of a run, through the filter one after the other. *)
Fixpoint filter_all (records : list (option (option string)))
    (last : option string) : list filtered * option string :=
  match records with
  | [] => ([], last)
  | r :: records' =>
      let '(f, last') := filter r last in
      let '(fs, last'') := filter_all records' last' in
      (f :: fs, last'')
  end.

End Logger.

(** The record carries the trace id [t]. *)
Definition carries (t : string) (r : option (option string)) : bool :=
  bool_decide (r = Some (Some t)).

(** The record comes without trace id: it has no [trace_id] attribute, or
    the attribute is "N/A". *)
Definition untraced (r : option (option string)) : bool :=
  bool_decide (r = None) || bool_decide (r = Some (Some Logger.na)).

(** ** What the stores accept *)




(** Every message of the graph hangs from the node of its session, as
    [_create_message_and_link_entities] and [_delete_session_graph_tx] leave
    the graph. *)
Definition graph_linked (w : world) : Prop :=
  Forall (fun m => gm_session m ∈ graph_sessions w) (graph_messages w).

(** What the specification asks of the snippet made from one similarity
    hit. *)
Definition cut_at_300 (hit snippet : string) : Prop :=
  ((300 < PyStr.len hit)%nat ->
   snippet = PyStr.take 300 hit +:+ "..."
   /\ PyStr.len (PyStr.take 300 hit) = 300%nat)
  /\ ((PyStr.len hit <= 300)%nat -> snippet = hit).

(** * Properties *)

(** ** Deduplication of the candidate snippets *)

Section Dedup.
Implicit Types (xs seen : list string) (d : list (string * unit)).

Lemma keys_setitem_present k d :
  k ∈ PyDict.keys d → PyDict.keys (PyDict.setitem k tt d) = PyDict.keys d.
Proof.
  unfold PyDict.keys. induction d as [|[k' []] d IH]; intros Hin.
  - by apply elem_of_nil in Hin.
  - cbn [PyDict.setitem]. destruct (decide (k = k')) as [->|Hne]; [done|].
    cbn. f_equal. apply IH. cbn in Hin. set_solver.
Qed.

Lemma keys_setitem_absent k d :
  k ∉ PyDict.keys d →
  PyDict.keys (PyDict.setitem k tt d) = PyDict.keys d ++ [k].
Proof.
  unfold PyDict.keys. induction d as [|[k' []] d IH]; intros Hnin; [done|].
  cbn [PyDict.setitem]. cbn in Hnin.
  destruct (decide (k = k')) as [->|Hne]; [set_solver|].
  cbn. f_equal. apply IH. set_solver.
Qed.

Lemma keys_fromkeys_from xs d :
  PyDict.keys (fold_left (fun d k => PyDict.setitem k tt d) xs d)
  = PyDict.keys d ++ first_occurrences_from (PyDict.keys d) xs.
Proof.
  revert d. induction xs as [|x xs IH]; intros d; cbn [fold_left first_occurrences_from].
  - by rewrite app_nil_r.
  - rewrite IH. case_bool_decide as Hx.
    + by rewrite keys_setitem_present.
    + rewrite keys_setitem_absent by done. by rewrite <- app_assoc.
Qed.

Lemma unique_snippets_first_occurrences xs :
  ContextEngine.unique_snippets xs = first_occurrences xs.
Proof.
  unfold ContextEngine.unique_snippets, PyDict.fromkeys.
  apply (keys_fromkeys_from xs []).
Qed.

Lemma elem_of_first_occurrences_from x seen xs :
  x ∈ first_occurrences_from seen xs ↔ x ∈ xs ∧ x ∉ seen.
Proof.
  revert seen. induction xs as [|y xs IH]; intros seen; simpl.
  - split; [intros []%elem_of_nil | intros [[]%elem_of_nil _]].
  - case_bool_decide as Hy.
    + rewrite IH, elem_of_cons. split; [naive_solver|].
      intros [[->|?] ?]; [contradiction | done].
    + rewrite elem_of_cons, IH, elem_of_cons, elem_of_app, list_elem_of_singleton.
      split.
      * intros [->|[? ?]]; [split; [by left | done] | split; [by right | tauto]].
      * intros [[->|?] ?]; [by left|].
        destruct (decide (x = y)) as [->|?]; [by left | right; tauto].
Qed.

Lemma NoDup_first_occurrences_from seen xs :
  NoDup (first_occurrences_from seen xs).
Proof.
  revert seen. induction xs as [|y xs IH]; intros seen; simpl.
  - constructor.
  - case_bool_decide; [apply IH|].
    constructor; [|apply IH].
    rewrite elem_of_first_occurrences_from, elem_of_app, list_elem_of_singleton.
    tauto.
Qed.

Lemma sublist_first_occurrences_from seen xs :
  first_occurrences_from seen xs `sublist_of` xs.
Proof.
  revert seen. induction xs as [|y xs IH]; intros seen; simpl.
  - constructor.
  - case_bool_decide; [apply sublist_cons, IH | apply sublist_skip, IH].
Qed.

Lemma first_occurrences_from_NoDup seen ys :
  NoDup ys → (∀ y, y ∈ ys → y ∉ seen) →
  first_occurrences_from seen ys = ys.
Proof.
  revert seen. induction ys as [|y ys IH]; intros seen Hnd Hseen; [done|].
  simpl. apply NoDup_cons in Hnd as [Hy Hnd].
  rewrite bool_decide_false by (apply Hseen; left).
  f_equal. apply IH; [done|].
  intros z Hz [Hin| ->%list_elem_of_singleton]%elem_of_app; [|done].
  apply (Hseen z); [by right | done].
Qed.

Example unique_snippets_example :
  ContextEngine.unique_snippets ["b"; "a"; "b"; "c"; "a"] = ["b"; "a"; "c"].
Proof. reflexivity. Qed.

(** C8. The deduplication of the candidate snippets,
    [list(dict.fromkeys(xs))], keeps exactly the first occurrence of every
    text: it is the list of first occurrences, has no duplicate, has the
    texts of [xs] and no other, keeps them in the order of [xs], and is
    idempotent. *)
Theorem C8_dedup_first_occurrence_idempotent xs :
  let ys := ContextEngine.unique_snippets xs in
  ys = first_occurrences xs
  ∧ NoDup ys
  ∧ (∀ x, x ∈ ys ↔ x ∈ xs)
  ∧ ys `sublist_of` xs
  ∧ ContextEngine.unique_snippets ys = ys.
Proof.
  simpl. rewrite !unique_snippets_first_occurrences. unfold first_occurrences.
  repeat split.
  - apply NoDup_first_occurrences_from.
  - by intros [? _]%elem_of_first_occurrences_from.
  - intros Hx. apply elem_of_first_occurrences_from.
    split; [done | apply not_elem_of_nil].
  - apply sublist_first_occurrences_from.
  - apply first_occurrences_from_NoDup.
    + apply NoDup_first_occurrences_from.
    + intros y _. apply not_elem_of_nil.
Qed.
End Dedup.

(** ** The call log grows, method by method *)

Section Emits.
Context {A B : Type}.
Implicit Types (P : call -> Prop).

Lemma emits_ret (a : A) P : emits (ret a) P.
Proof. intros w. exists []. by rewrite app_nil_r. Qed.

Lemma emits_raise (e : exn) P : emits (@raise A e) P.
Proof. intros w. exists []. by rewrite app_nil_r. Qed.

Lemma emits_out_of_fuel P : emits (@out_of_fuel A) P.
Proof. intros w. exists []. by rewrite app_nil_r. Qed.

Lemma emits_bind (m : M A) (k : A -> M B) P :
  emits m P -> (forall a, emits (k a) P) -> emits (bind m k) P.
Proof.
  intros Hm Hk w. unfold bind. destruct (Hm w) as (tr1 & E1 & F1).
  destruct (m w) as [[a|e|] w1]; simpl in *; [|by exists tr1..].
  destruct (Hk a w1) as (tr2 & E2 & F2).
  exists (tr1 ++ tr2). rewrite E2, E1, app_assoc. split; [done|].
  by apply Forall_app.
Qed.

Lemma emits_try_except (m : M A) caught (h : exn -> M A) P :
  emits m P -> (forall e, emits (h e) P) -> emits (try_except m caught h) P.
Proof.
  intros Hm Hh w. unfold try_except. destruct (Hm w) as (tr1 & E1 & F1).
  destruct (m w) as [[a|e|] w1]; simpl in *; [by exists tr1| |by exists tr1].
  destruct (caught e); [|by exists tr1].
  destruct (Hh e w1) as (tr2 & E2 & F2).
  exists (tr1 ++ tr2). rewrite E2, E1, app_assoc. split; [done|].
  by apply Forall_app.
Qed.

Lemma emits_weaken (m : M A) P Q :
  (forall c, P c -> Q c) -> emits m P -> emits m Q.
Proof.
  intros HPQ Hm w. destruct (Hm w) as (tr & E1 & F1).
  exists tr. split; [done|]. eapply Forall_impl; eauto.
Qed.
End Emits.

Lemma emits_bind_yields {A B} (m : M A) (k : A -> M B) P Q :
  yields m P Q -> (forall a, Q a -> emits (k a) P) -> emits (bind m k) P.
Proof.
  intros Hm Hk w. unfold bind. destruct (Hm w) as (tr1 & E1 & F1 & HQ).
  destruct (m w) as [[a|e|] w1]; simpl in *; [|by exists tr1..].
  destruct (Hk a (HQ a eq_refl) w1) as (tr2 & E2 & F2).
  exists (tr1 ++ tr2). rewrite E2, E1, app_assoc. split; [done|].
  by apply Forall_app.
Qed.

Lemma yields_emits {A} (m : M A) P Q :
  emits m P -> (forall w a, fst (m w) = Ret a -> Q a) -> yields m P Q.
Proof.
  intros Hm HQ w. destruct (Hm w) as (tr & E1 & F1). exists tr. eauto.
Qed.

Lemma emits_log c (P : call -> Prop) : P c -> emits (log c) P.
Proof. intros Hc w. exists [c]. split; [done | by constructor]. Qed.

Lemma emits_get_world P : emits get_world P.
Proof. intros w. exists []. by rewrite app_nil_r. Qed.

Lemma emits_backend E s P : emits (backend E s) P.
Proof. unfold backend. destruct (fault E s); [apply emits_raise | apply emits_ret]. Qed.

Lemma emits_set_turns f P : emits (set_turns f) P.
Proof. intros w. exists []. by rewrite app_nil_r. Qed.

Lemma emits_set_sqlite f g P : emits (set_sqlite f g) P.
Proof. intros w. exists []. by rewrite app_nil_r. Qed.

Lemma emits_set_documents f P : emits (set_documents f) P.
Proof. intros w. exists []. by rewrite app_nil_r. Qed.

Lemma emits_set_graph f g P : emits (set_graph f g) P.
Proof. intros w. exists []. by rewrite app_nil_r. Qed.

Lemma emits_set_loaded_instances f P : emits (set_loaded_instances f) P.
Proof. intros w. exists []. by rewrite app_nil_r. Qed.

Lemma emits_set_config c P : emits (set_config c) P.
Proof. intros w. exists []. by rewrite app_nil_r. Qed.

Lemma emits_for_each {A B} (xs : list A) (acc : B) body P :
  (forall b a, emits (body b a) P) -> emits (for_each xs acc body) P.
Proof.
  intros Hb. revert acc. induction xs as [|x xs IH]; intros acc; simpl.
  - apply emits_ret.
  - apply emits_bind; [apply Hb | intros; apply IH].
Qed.

Lemma emits_attr_content r P : emits (attr_content r) P.
Proof. destruct r; [apply emits_ret | apply emits_raise]. Qed.

Lemma emits_attr_tool_calls r P : emits (attr_tool_calls r) P.
Proof. destruct r; [apply emits_ret | apply emits_raise]. Qed.

Lemma emits_method_strip x P : emits (method_strip x) P.
Proof. destruct x; [apply emits_ret | apply emits_raise]. Qed.

Lemma emits_new_calls {A} (m : M A) P w :
  emits m P -> Forall P (new_calls w (snd (m w))).
Proof.
  intros Hm. destruct (Hm w) as (tr & E1 & F1).
  unfold new_calls. by rewrite E1, drop_app_length.
Qed.

(** One step of the routine proof that a method only logs calls in [P]:
    split the method along its binds, handlers and branches; what is left
    are the logged calls themselves. *)
Ltac emits_step :=
  first
    [ apply emits_ret | apply emits_raise | apply emits_out_of_fuel
    | apply emits_get_world | apply emits_backend
    | apply emits_set_turns | apply emits_set_sqlite
    | apply emits_set_documents | apply emits_set_graph
    | apply emits_set_loaded_instances | apply emits_set_config
    | apply emits_attr_content | apply emits_attr_tool_calls
    | apply emits_method_strip
    | apply emits_bind | apply emits_try_except | apply emits_for_each
    | apply emits_log
    | progress intros
    | match goal with
      | |- emits (if ?b then _ else _) _ => destruct b
      | |- emits (match ?x with _ => _ end) _ => destruct x
      end ].

Ltac emits_auto := repeat emits_step.

(** ** The provider factory and the internal model calls *)

Lemma providers_openai E cls :
  ApiManager.providers E "openai" = Some cls -> cls = OpenAIProvider.
Proof.
  unfold ApiManager.providers. simpl.
  destruct (registered E OpenAIProvider); congruence.
Qed.

Lemma get_provider_emits E name model P :
  P (GetProvider name model) -> emits (ApiManager.get_provider E name model) P.
Proof. intros HP. unfold ApiManager.get_provider. emits_auto. exact HP. Qed.

Lemma get_provider_gpt35 E w p :
  fst (ApiManager.get_provider E "openai" "gpt-3.5-turbo" w) = Ret (Some p) ->
  p = gpt35.
Proof.
  unfold ApiManager.get_provider, bind, log, get_world, ret,
    set_loaded_instances.
  destruct (ApiManager.providers E "openai") as [cls|] eqn:Hp; simpl;
    [|congruence].
  apply providers_openai in Hp as ->. unfold gpt35.
  case_bool_decide; simpl; [congruence|].
  destruct (provider_init E OpenAIProvider); simpl; congruence.
Qed.

Lemma get_provider_gpt35_yields E P :
  P (GetProvider "openai" "gpt-3.5-turbo") ->
  yields (ApiManager.get_provider E "openai" "gpt-3.5-turbo") P
    (fun o => forall p, o = Some p -> p = gpt35).
Proof.
  intros HP. apply yields_emits; [by apply get_provider_emits|].
  intros w a Ha p ->. by eapply get_provider_gpt35.
Qed.

Lemma generate_response_emits E p r pr h P :
  P (GenerateResponse p r) -> emits (Provider.generate_response E p r pr h) P.
Proof.
  intros HP. unfold Provider.generate_response. emits_auto. exact HP.
Qed.

(** The calls of the internal helpers satisfy whatever [P] holds of a
    request for the gpt-3.5 instance of the OpenAI provider and of a call on
    it that is not a round of the chat. *)
Section Internal.
Context (E : env) (P : call -> Prop).
Hypothesis P_get : P (GetProvider "openai" "gpt-3.5-turbo").
Hypothesis P_gen :
  forall r, is_chat_call (GenerateResponse gpt35 r) = false ->
            P (GenerateResponse gpt35 r).

Lemma extract_emits text :
  emits (ContextEngine._extract_entities_with_gpt E text) P.
Proof.
  unfold ContextEngine._extract_entities_with_gpt.
  eapply emits_bind_yields; [by apply get_provider_gpt35_yields|].
  intros [p|] Hp; [|apply emits_ret]. rewrite (Hp p eq_refl).
  repeat first [apply generate_response_emits; by apply P_gen | emits_step].
Qed.

Lemma synthesize_emits snippets :
  emits (ContextEngine._synthesize_context_with_gpt E snippets) P.
Proof.
  unfold ContextEngine._synthesize_context_with_gpt.
  destruct snippets as [|s snippets]; [apply emits_ret|].
  eapply emits_bind_yields; [by apply get_provider_gpt35_yields|].
  intros [p|] Hp; [|apply emits_ret]. rewrite (Hp p eq_refl).
  repeat first [apply generate_response_emits; by apply P_gen | emits_step].
Qed.
End Internal.

(** ** The managers log their own call and nothing else *)

Section ManagerCalls.
Context (E : env) (P : call -> Prop).

Lemma get_summary_emits sid :
  P (SqlGetSummary sid) -> emits (SQLiteManager.get_summary E sid) P.
Proof.
  intros. unfold SQLiteManager.get_summary, SQLiteManager._get_connection.
  emits_auto. assumption.
Qed.

Lemma update_summary_emits sid s n :
  P (SqlUpdateSummary sid s n) ->
  emits (SQLiteManager.update_summary E sid s n) P.
Proof.
  intros. unfold SQLiteManager.update_summary, SQLiteManager._get_connection.
  emits_auto. assumption.
Qed.

Lemma add_turn_emits sid t :
  P (RedisAddTurn sid t) -> emits (RedisManager.add_turn E sid t) P.
Proof. intros. unfold RedisManager.add_turn. emits_auto. assumption. Qed.

Lemma get_recent_turns_emits sid n :
  P (RedisGetRecentTurns sid n) ->
  emits (RedisManager.get_recent_turns E sid n) P.
Proof.
  intros. unfold RedisManager.get_recent_turns. emits_auto. assumption.
Qed.

Lemma trim_history_emits sid n :
  P (RedisTrimHistory sid n) -> emits (RedisManager.trim_history E sid n) P.
Proof. intros. unfold RedisManager.trim_history. emits_auto. assumption. Qed.

Lemma client_llen_emits sid :
  P (RedisLLen sid) -> emits (RedisManager.client_llen E sid) P.
Proof. intros. unfold RedisManager.client_llen. emits_auto. assumption. Qed.

Lemma add_entry_emits sid t i r :
  P (ChromaAddEntry sid t i r) -> emits (ChromaManager.add_entry E sid t i r) P.
Proof. intros. unfold ChromaManager.add_entry. emits_auto. assumption. Qed.


Lemma add_message_emits sid i r t ents :
  P (NeoAddMessage sid i r t ents) ->
  emits (Neo4jManager.add_message_and_entities E sid i r t ents) P.
Proof.
  intros. unfold Neo4jManager.add_message_and_entities. emits_auto.
  assumption.
Qed.

End ManagerCalls.

Lemma summarize_emits E sid (P : call -> Prop) :
  P (GetProvider "openai" "gpt-3.5-turbo") ->
  (forall r, is_chat_call (GenerateResponse gpt35 r) = false ->
             P (GenerateResponse gpt35 r)) ->
  (forall c, is_provider_call c = false -> P c) ->
  emits (Orchestrator._summarize_and_update_mid_term_memory E sid) P.
Proof.
  intros P_get P_gen P_other.
  unfold Orchestrator._summarize_and_update_mid_term_memory.
  apply emits_bind; [apply get_recent_turns_emits; by apply P_other|].
  intros all_turns. destruct (_ <=? 0); [apply emits_ret|].
  apply emits_bind; [apply get_summary_emits; by apply P_other|].
  intros previous_summary.
  eapply emits_bind_yields; [by apply get_provider_gpt35_yields|].
  intros [p|] Hp; [|apply emits_ret]. rewrite (Hp p eq_refl).
  repeat first
    [ apply generate_response_emits; by apply P_gen
    | apply update_summary_emits; by apply P_other
    | apply trim_history_emits; by apply P_other
    | emits_step ].
Qed.

Lemma addressed_to_gpt35_other c :
  is_provider_call c = false -> addressed_to_gpt35 c.
Proof. by destruct c. Qed.


Lemma get_provider_calls E name model w :
  calls (snd (ApiManager.get_provider E name model w))
  = calls w ++ [GetProvider name model].
Proof.
  unfold ApiManager.get_provider, bind, log, get_world, ret,
    set_loaded_instances.
  destruct (ApiManager.providers E name); simpl; [|done].
  case_bool_decide; simpl; [done|].
  by destruct (provider_init E _).
Qed.

Lemma bind_first_call {A B} (m : M A) (k : A -> M B) w c tr0 :
  calls (snd (m w)) = calls w ++ c :: tr0 ->
  (forall a, emits (k a) (fun _ => True)) ->
  head (new_calls w (snd (bind m k w))) = Some c.
Proof.
  intros Hm Hk. unfold bind, new_calls.
  destruct (m w) as [[a|e|] w1]; simpl in *;
    [|by rewrite Hm, drop_app_length..].
  destruct (Hk a w1) as (tr & -> & _).
  by rewrite Hm, <- app_assoc, drop_app_length.
Qed.

(** C10. Whatever the process-wide LLM settings are (here: the settings
    [llm_settings] of the request, just stored by [update_llm_settings]),
    every provider request and every model call made by the entity
    extraction, by the context synthesis and by the background summary is
    addressed to provider "openai" with model "gpt-3.5-turbo"; the extraction
    starts by asking the factory for exactly that provider. *)
Theorem C10_internal_calls_addressed_to_gpt35
    (E : env) (llm_settings : llm_config) (w0 : world)
    (text sid : string) (snippets : list string) :
  let w := snd (Orchestrator.update_llm_settings llm_settings w0) in
  Forall addressed_to_gpt35
    (new_calls w (snd (ContextEngine._extract_entities_with_gpt E text w)))
  /\ Forall addressed_to_gpt35
       (new_calls w
          (snd (ContextEngine._synthesize_context_with_gpt E snippets w)))
  /\ Forall addressed_to_gpt35
       (new_calls w
          (snd (Orchestrator._summarize_and_update_mid_term_memory E sid w)))
  /\ head (new_calls w
             (snd (ContextEngine._extract_entities_with_gpt E text w)))
     = Some (GetProvider "openai" "gpt-3.5-turbo").
Proof.
  intros w. repeat split.
  - apply emits_new_calls, extract_emits; done.
  - apply emits_new_calls, synthesize_emits; done.
  - apply emits_new_calls, summarize_emits;
      [done | done | apply addressed_to_gpt35_other].
  - unfold ContextEngine._extract_entities_with_gpt.
    eapply bind_first_call; [apply get_provider_calls|].
    intros [p|]; [|apply emits_ret].
    repeat first [by apply generate_response_emits | emits_step].
Qed.

(** ** Entity extraction *)

Ltac run_monad :=
  unfold backend, attr_content, method_strip;
  unfold bind, ret, raise, log, try_except, get_world, out_of_fuel; simpl.

Lemma extract_with_provider E text w :
  exists l w',
    try_except
      (try_except
         (rh <- Provider.generate_response E gpt35 (Extraction text)
                  (Template (Extraction text)) [] ;;
          c <- attr_content (fst rh) ;;
          entities_json <- method_strip c ;;
          if PyStr.is_empty entities_json
             || negb (PyStr.startswith_char "[" entities_json)
          then ret []
          else
            match json_loads E entities_json with
            | None => raise JSONDecodeError
            | Some (JArray items) =>
                if forallb is_json_string items
                then ret (omap json_string items)
                else ret []
            | Some _ => ret []
            end)
         is_json_error (fun _ => ret []))
      any_exception (fun _ => ret []) w = (Ret l, w')
    /\ (extraction_violation E text -> l = []).
Proof.
  unfold Provider.generate_response. run_monad.
  destruct (api E gpt35 (Extraction text)) as [[s|] tcs|[] msg] eqn:Hapi; simpl.
  - destruct (PyStr.is_empty (PyStr.strip s)
              || negb (PyStr.startswith_char "[" (PyStr.strip s))) eqn:Hj; simpl.
    { eexists _, _. split; [reflexivity|]. done. }
    apply orb_false_iff in Hj as [Hne Hst]. apply negb_false_iff in Hst.
    destruct (json_loads E (PyStr.strip s)) as [v|] eqn:Hload; simpl.
    + assert (Hviol : extraction_violation E text ->
                      invalid_entities_json E (PyStr.strip s)).
      { intros [? ? H|? H|? ? H Hinv]; congruence. }
      destruct v as [| | | |items|]; simpl;
        try (eexists _, _; split; [reflexivity|]; done).
      destruct (forallb is_json_string items) eqn:Hall; simpl;
        eexists _, _; (split; [reflexivity|]); [|done].
      intros [Hinv|[Hinv|[Hinv|[(v & Hv & Hinv)|(its & Hv & x & Hx & Hns)]]]]%Hviol.
      * rewrite Hinv in Hne. done.
      * congruence.
      * congruence.
      * exfalso. apply (Hinv items). congruence.
      * assert (its = items) as -> by congruence.
        rewrite forallb_forall in Hall.
        apply list_elem_of_In, Hall in Hx. congruence.
    + eexists _, _. split; [reflexivity | done].
  - eexists _, _. split; [reflexivity | done].
  - eexists _, _. split; [reflexivity | done].
  - eexists _, _. split; [reflexivity | done].
Qed.

Lemma extract_result E text w :
  exists l w',
    ContextEngine._extract_entities_with_gpt E text w = (Ret l, w')
    /\ (extraction_violation E text -> l = []).
Proof.
  unfold ContextEngine._extract_entities_with_gpt, bind.
  pose proof (get_provider_gpt35 E w) as Hp.
  pose proof (get_provider_emits E "openai" "gpt-3.5-turbo" (fun _ => True) I w)
    as _.
  destruct (ApiManager.get_provider E "openai" "gpt-3.5-turbo" w)
    as [[[p|]|e|] w1] eqn:Hg; simpl in *.
  - rewrite (Hp p eq_refl). apply extract_with_provider.
  - eexists _, _. split; [reflexivity | done].
  - exfalso. revert Hg. unfold ApiManager.get_provider. run_monad.
    unfold set_loaded_instances.
    repeat (case_match; simpl; try congruence).
  - exfalso. revert Hg. unfold ApiManager.get_provider. run_monad.
    unfold set_loaded_instances.
    repeat (case_match; simpl; try congruence).
Qed.

(** The extractor returns a list, whatever the model sends. *)
Lemma extract_never_raises E text w :
  exists l, fst (ContextEngine._extract_entities_with_gpt E text w) = Ret l.
Proof.
  destruct (extract_result E text w) as (l & w' & -> & _). by exists l.
Qed.

(** C5. Whenever the model call fails, the response carries no text, or
    its text (white space at both ends removed, as the extractor reads it)
    is empty, does not begin with "[", is not valid JSON, is not a list or
    holds an element that is not a string, the extractor returns the empty
    list; it returns, it does not raise. *)
Theorem C5_extractor_empty_on_violation E text w :
  extraction_violation E text ->
  fst (ContextEngine._extract_entities_with_gpt E text w) = Ret [].
Proof.
  intros Hviol. destruct (extract_result E text w) as (l & w' & -> & Hl).
  simpl. by rewrite Hl.
Qed.

Lemma C5_witness :
  fst (ContextEngine._extract_entities_with_gpt
         (env_up (Completion (Some " [1] ") []) toy_loads) "hola" empty_world)
  = Ret [].
Proof.
  apply C5_extractor_empty_on_violation.
  eapply (response_invalid _ _ " [1] " []); [reflexivity|].
  right; right; right; right. exists [JNumber 1].
  split; [reflexivity|]. exists (JNumber 1). split; [left | reflexivity].
Defined.

Example extract_string_array :
  fst (ContextEngine._extract_entities_with_gpt
         (env_up (Completion (Some "[x]") [])
            (fun _ => Some (JArray [JString "fields"; JString "unexplored"])))
         "What AI fields remain unexplored?" empty_world)
  = Ret ["fields"; "unexplored"].
Proof. reflexivity. Qed.

(** ** Retrieval: the similarity tier *)

Arguments ContextEngine.truncated_results : simpl never.

Lemma search_similar_run E q n sid w :
  exists w',
    ChromaManager.search_similar E q n sid w
    = (Ret (if chroma_collection E then
              match fault E (ChromaQuery q) with
              | None => Some (take n (chroma_hits E q))
              | Some _ => None
              end
            else None), w').
Proof.
  unfold ChromaManager.search_similar. run_monad.
  destruct (chroma_collection E); simpl; [|by eexists].
  destruct (fault E (ChromaQuery q)); simpl; by eexists.
Qed.

Lemma truncated_results_nil : ContextEngine.truncated_results [] = [].
Proof. reflexivity. Qed.

Lemma search_chroma_step E sid snippets e w :
  exists w',
    (similar_memories <-
       ChromaManager.search_similar E
         ("¿Qué información relevante hay sobre " +:+ e +:+ "?") 5 sid ;;
     match similar_memories with
     | Some (doc :: docs) =>
         ret (snippets ++ ContextEngine.truncated_results (doc :: docs))
     | _ => ret snippets
     end) w
    = (Ret (snippets ++ ContextEngine.truncated_results (similarity_hits E e)),
       w').
Proof.
  unfold bind, similarity_hits.
  destruct (search_similar_run E
              ("¿Qué información relevante hay sobre " +:+ e +:+ "?")
              5%nat sid w) as (w1 & ->).
  set (q := "¿Qué información relevante hay sobre " +:+ e +:+ "?").
  destruct (chroma_collection E);
    [destruct (fault E (ChromaQuery q));
       [|destruct (take 5 (chroma_hits E q))]|];
    rewrite ?truncated_results_nil, ?app_nil_r; by eexists.
Qed.

Lemma search_chroma_run E sid names snippets w :
  exists w',
    ContextEngine.search_chroma E sid names snippets w
    = (Ret (snippets ++
            flat_map (fun e => ContextEngine.truncated_results
                                 (similarity_hits E e)) names), w').
Proof.
  unfold ContextEngine.search_chroma.
  revert snippets w. induction names as [|e names IH]; intros snippets w.
  - simpl. rewrite app_nil_r. by eexists.
  - cbn [for_each flat_map]. unfold bind at 1.
    destruct (search_chroma_step E sid snippets e w) as (w1 & ->).
    destruct (IH (snippets ++ ContextEngine.truncated_results
                                (similarity_hits E e)) w1) as (w2 & ->).
    rewrite <- app_assoc. by eexists.
Qed.

Lemma len_take n s : (n <= PyStr.len s)%nat -> PyStr.len (PyStr.take n s) = n.
Proof.
  unfold PyStr.len. revert s. induction n as [|n IH]; intros [|c s] Hn;
    simpl in *; try lia. by rewrite IH by lia.
Qed.

Example truncated_results_example :
  ContextEngine.truncated_results ["abc"] = ["abc"].
Proof. reflexivity. Qed.

Lemma truncated_results_cut docs :
  Forall2 cut_at_300 docs (ContextEngine.truncated_results docs).
Proof.
  unfold ContextEngine.truncated_results.
  induction docs as [|doc docs IH]; cbn [map]; constructor; [|exact IH].
  unfold cut_at_300.
  destruct (300 <? PyStr.len doc)%nat eqn:Hlen.
  - apply Nat.ltb_lt in Hlen. split; [|lia].
    intros _. split; [done|]. apply len_take. lia.
  - apply Nat.ltb_ge in Hlen. split; [lia | done].
Qed.

(** C9. The similarity search returns the candidates it was given followed
    by one snippet for every hit the index returned, in the order of the
    entities and of the hits; and for every one of these hits, a document
    longer than 300 characters is included as its first 300 characters
    (exactly 300 of them) followed by "...", a document of 300 characters
    or fewer as it is. *)
Theorem C9_similarity_documents_truncated E sid names snippets w :
  exists added,
    fst (ContextEngine.search_chroma E sid names snippets w)
    = Ret (snippets ++ added)
    /\ Forall2 cut_at_300 (flat_map (similarity_hits E) names) added.
Proof.
  destruct (search_chroma_run E sid names snippets w) as (w' & ->).
  eexists. split; [reflexivity|]. clear.
  induction names as [|e names IH]; cbn [flat_map]; [constructor|].
  apply Forall2_app; [apply truncated_results_cut | exact IH].
Qed.

(** ** Retrieval without entities *)

Lemma get_summary_calls E sid w :
  calls (snd (SQLiteManager.get_summary E sid w))
  = calls w ++ [SqlGetSummary sid].
Proof.
  unfold SQLiteManager.get_summary, SQLiteManager._get_connection. run_monad.
  destruct (fault E (SqlConnect MGetSummary)); simpl; [done|].
  destruct (fault E (SqlExecute MGetSummary)) as [e|]; simpl; [|done].
  by destruct (is_sqlite_error e).
Qed.

(** C6. In a retrieval whose extracted entity sequence is empty, no query
    goes to the similarity index and none to the relationship graph; the
    rolling summary is fetched all the same (it is the first call of the
    retrieval) and, when the fetch returns a summary with a non-empty text,
    that text is the one snippet candidate. *)
Theorem C6_no_entities_no_long_term_lookup E sid user_prompt w snippets :
  fst (ContextEngine.relevant_context_snippets E sid user_prompt w)
  = Ret (snippets, []) ->
  let w' := snd (ContextEngine.relevant_context_snippets E sid user_prompt w) in
  Forall no_long_term_query (new_calls w w')
  /\ head (new_calls w w') = Some (SqlGetSummary sid)
  /\ snippets = match fst (SQLiteManager.get_summary E sid w) with
                | Ret (Some (summary_text, _)) =>
                    if PyStr.is_empty summary_text then [] else [summary_text]
                | _ => []
                end.
Proof.
  unfold ContextEngine.relevant_context_snippets, bind.
  pose proof (get_summary_calls E sid w) as Hc.
  destruct (SQLiteManager.get_summary E sid w) as [[summary|e|] w1];
    simpl in *; [|discriminate..].
  destruct (extract_result E user_prompt w1) as (l & w2 & He & _).
  pose proof (extract_emits E no_long_term_query (conj eq_refl eq_refl)
                (fun _ _ => conj eq_refl eq_refl) user_prompt w1) as (tr & Htr & Hq).
  rewrite He in *. simpl in *. destruct l as [|e l].
  - unfold ret. simpl. intros [= <-].
    unfold new_calls. rewrite Htr, Hc, <- app_assoc, drop_app_length.
    split; [|split].
    + constructor; [done | exact Hq].
    + done.
    + by destruct summary as [[]|].
  - destruct (search_chroma_run E sid (e :: l)
                match summary with
                | Some (summary_text, _) =>
                    if PyStr.is_empty summary_text then [] else [summary_text]
                | None => []
                end w2) as (w3 & ->).
    destruct (ContextEngine.search_neo4j E sid (e :: l) _ w3) as [[?|?|] ?];
      simpl; discriminate.
Qed.

Lemma C6_witness :
  let E := env_up (Completion (Some "[]") []) toy_loads in
  let w := session_world [] 12 in
  let w' := snd (ContextEngine.relevant_context_snippets E "s" "hola" w) in
  Forall no_long_term_query (new_calls w w')
  /\ head (new_calls w w') = Some (SqlGetSummary "s")
  /\ ["resumen"] = match fst (SQLiteManager.get_summary E "s" w) with
                  | Ret (Some (summary_text, _)) =>
                      if PyStr.is_empty summary_text then []
                      else [summary_text]
                  | _ => []
                  end.
Proof.
  intros E w.
  apply (C6_no_entities_no_long_term_lookup E "s" "hola" w ["resumen"]).
  vm_compute. reflexivity.
Defined.

(** ** Cascading deletion of a session *)

Ltac run_stores :=
  unfold set_turns, set_sqlite, set_documents, set_graph,
    set_loaded_instances, set_config; simpl.

Lemma delete_session_data_returns E sid w :
  exists b, fst (Orchestrator.delete_session_data E sid w) = Ret b.
Proof.
  unfold Orchestrator.delete_session_data, SQLiteManager.delete_session,
    SQLiteManager._get_connection, RedisManager.delete_session_history,
    ChromaManager.delete_session_entries, Neo4jManager.delete_session_graph.
  run_monad. run_stores.
  repeat (case_match; simpl in *; simplify_eq; try by eexists).
Qed.

Example delete_session_all_up :
  let r := Orchestrator.delete_session_data
             (env_up (Completion (Some "ok") []) toy_loads) "s"
             (session_world [Turn "user" (Some "hola")] 12) in
  fst r = Ret true /\ all_tiers_deleted "s" (snd r).
Proof.
  split; [reflexivity|]. vm_compute.
  repeat split; try constructor. by intros ?%elem_of_nil.
Qed.

(** The claim as stated fails: the deletion in the relationship graph
    raises, the adapter catches it, and the operation reports success with
    the session, node and message, still in the graph. *)
Lemma C1_counterexample :
  let E := fault_at NeoDelete OtherError
             (env_up (Completion (Some "ok") []) toy_loads) in
  let r := Orchestrator.delete_session_data E "s" (session_world [] 12) in
  fst r = Ret true
  /\ "s" ∈ graph_sessions (snd r)
  /\ ~ all_tiers_deleted "s" (snd r).
Proof.
  split; [reflexivity|].
  assert (Hin : "s" ∈ graph_sessions
                  (snd (Orchestrator.delete_session_data
                          (fault_at NeoDelete OtherError
                             (env_up (Completion (Some "ok") []) toy_loads))
                          "s" (session_world [] 12)))).
  { vm_compute. left. }
  split; [exact Hin|].
  intros (_ & _ & _ & Hgraph & _). by apply Hgraph.
Qed.

(** C1, as amended. Leaving aside the case where SQLite rejects the DELETE
    statements themselves, the operation reports failure exactly when an
    exception escapes a per-tier delete call: the relational store fails to
    connect or raises something that is not a [sqlite3.Error], or the
    key-value store raises something that is not a [RedisError]. Otherwise
    it reports success, whatever the Redis, Chroma and Neo4j adapters caught
    and logged. Whenever the relational call itself did not raise, its
    deletion is done, also when the operation then reports failure. *)
Theorem C1_failure_iff_exception_escapes E sid w :
  fault E (SqlExecute MDeleteSession) <> Some SqliteError ->
  let r := Orchestrator.delete_session_data E sid w in
  (fst r = Ret false <-> sqlite_delete_raises E \/ redis_delete_raises E)
  /\ (fst r = Ret true <-> ~ (sqlite_delete_raises E \/ redis_delete_raises E))
  /\ (~ sqlite_delete_raises E -> relational_deleted sid (snd r)).
Proof.
  intros Hexec.
  unfold Orchestrator.delete_session_data, SQLiteManager.delete_session,
    SQLiteManager._get_connection, RedisManager.delete_session_history,
    ChromaManager.delete_session_entries, Neo4jManager.delete_session_graph,
    relational_deleted, is_sqlite_error, is_redis_error, any_exception.
  run_monad. run_stores.
  destruct (fault E (SqlConnect MDeleteSession)) as [e1|] eqn:H1; simpl.
  { assert (sqlite_delete_raises E) by (left; congruence).
    split_and!; [split; [by left | done] | split; [done | tauto] | tauto]. }
  destruct (fault E (SqlExecute MDeleteSession)) as [e2|] eqn:H2; simpl.
  { case_bool_decide as He2; [congruence|]. simpl.
    assert (sqlite_delete_raises E) by (right; by exists e2).
    split_and!; [split; [by left | done] | split; [done | tauto] | tauto]. }
  assert (Hns : ~ sqlite_delete_raises E).
  { intros [?|(? & ? & ?)]; congruence. }
  destruct (redis_client E) eqn:H3; simpl.
  - destruct (fault E RedisDel) as [e3|] eqn:H4; simpl.
    + case_bool_decide as He3; simpl.
      * assert (Hnr : ~ redis_delete_raises E).
        { intros (_ & ? & ? & ?); congruence. }
        repeat (case_match; simpl in *; simplify_eq);
          (split_and!; [split; [done | tauto] | split; [tauto | done]
                       | intros _; split; apply lookup_delete_eq]).
      * assert (redis_delete_raises E) by (split; [done | by exists e3]).
        split_and!; [split; [by right | done] | split; [done | tauto]
                    | intros _; split; apply lookup_delete_eq].
    + assert (Hnr : ~ redis_delete_raises E).
      { intros (_ & ? & ? & ?); congruence. }
      repeat (case_match; simpl in *; simplify_eq);
        (split_and!; [split; [done | tauto] | split; [tauto | done]
                     | intros _; split; apply lookup_delete_eq]).
  - assert (Hnr : ~ redis_delete_raises E).
    { intros (? & _); congruence. }
    repeat (case_match; simpl in *; simplify_eq);
      (split_and!; [split; [done | tauto] | split; [tauto | done]
                   | intros _; split; apply lookup_delete_eq]).
Qed.

Lemma C1_witness :
  let E := fault_at (SqlConnect MDeleteSession) SqliteError
             (env_up (Completion (Some "ok") []) toy_loads) in
  let r := Orchestrator.delete_session_data E "s" (session_world [] 12) in
  (fst r = Ret false <-> sqlite_delete_raises E \/ redis_delete_raises E)
  /\ (fst r = Ret true <-> ~ (sqlite_delete_raises E \/ redis_delete_raises E))
  /\ (~ sqlite_delete_raises E -> relational_deleted "s" (snd r)).
Proof.
  intros E.
  apply (C1_failure_iff_exception_escapes E "s" (session_world [] 12)).
  vm_compute. discriminate.
Defined.

(** ** The background summary *)

Ltac zbool :=
  repeat match goal with
    | H : (_ <? _) = true |- _ => apply Z.ltb_lt in H
    | H : (_ <? _) = false |- _ => apply Z.ltb_ge in H
    | H : (_ <=? _) = true |- _ => apply Z.leb_le in H
    | H : (_ <=? _) = false |- _ => apply Z.leb_gt in H
    | H : _ || _ = true |- _ => apply orb_true_iff in H as [H|H]
    | H : _ || _ = false |- _ => apply orb_false_iff in H as [? ?]
    end.

Lemma lrange_all {A} (l : list A) : RedisList.lrange l 0 (-1) = l.
Proof.
  unfold RedisList.lrange, RedisList.norm_start, RedisList.norm_stop.
  repeat (case_match; zbool; try lia).
  - destruct l; [done | simpl in *; lia].
  - destruct l; [done | simpl in *; lia].
  - change (Z.to_nat 0) with 0%nat. rewrite drop_0. apply take_ge. lia.
Qed.

Lemma lrange_last {A} (l : list A) (k : nat) :
  (0 < k)%nat ->
  RedisList.lrange l (- Z.of_nat k) (-1) = drop (length l - k) l.
Proof.
  intros Hk.
  unfold RedisList.lrange, RedisList.norm_start, RedisList.norm_stop.
  repeat (case_match; zbool; try lia).
  - destruct l; [by rewrite drop_nil | simpl in *; lia].
  - destruct l; [by rewrite drop_nil | simpl in *; lia].
  - replace (length l - k)%nat with 0%nat by lia.
    change (Z.to_nat 0) with 0%nat. apply take_ge. rewrite length_drop. lia.
  - replace (Z.to_nat (Z.of_nat (length l) + - Z.of_nat k))
      with (length l - k)%nat by lia.
    apply take_ge. rewrite length_drop. lia.
Qed.

Example lrange_example :
  RedisList.lrange [1; 2; 3; 4; 5] (-2) (-1) = [4; 5]
  /\ RedisList.lrange [1; 2; 3] (- 0) (-1) = [1; 2; 3]
  /\ RedisList.ltrim [1; 2; 3] (-10) (-1) = [1; 2; 3].
Proof. repeat split; reflexivity. Qed.

Lemma stored_congr w w' sid :
  turns w' = turns w -> RedisManager.stored w' sid = RedisManager.stored w sid.
Proof. unfold RedisManager.stored. by intros ->. Qed.

(** Reading the whole buffer ([num_turns=0]): the stored list, the empty
    list when Redis is down or the read failed, or an exception that is not
    a [RedisError]. Only the log changes. *)
Lemma get_recent_turns_all_run E sid w :
  exists r w1,
    RedisManager.get_recent_turns E sid 0 w = (r, w1)
    /\ turns w1 = turns w /\ summaries w1 = summaries w
    /\ loaded_instances w1 = loaded_instances w
    /\ (r = Ret (RedisManager.stored w sid) \/ r = Ret []
        \/ exists e, r = Raise e)
    /\ (redis_client E = true -> fault E RedisLRange = None ->
        r = Ret (RedisManager.stored w sid)).
Proof.
  unfold RedisManager.get_recent_turns. run_monad.
  destruct (redis_client E); simpl.
  - destruct (fault E RedisLRange) as [e|]; simpl.
    + unfold is_redis_error. case_bool_decide; simpl.
      * eexists _, _. split_and!; try done. by right; left.
      * eexists _, _. split_and!; try done. right; right; by eexists.
    + rewrite lrange_all.
      eexists _, _. split_and!; try done. by left.
  - eexists _, _. split_and!; try done. by right; left.
Qed.

Lemma get_summary_run E sid w :
  exists r w1,
    SQLiteManager.get_summary E sid w = (r, w1)
    /\ turns w1 = turns w /\ summaries w1 = summaries w
    /\ loaded_instances w1 = loaded_instances w
    /\ (fault E (SqlConnect MGetSummary) = None ->
        fault E (SqlExecute MGetSummary) = None ->
        r = Ret (summaries w !! sid)).
Proof.
  unfold SQLiteManager.get_summary, SQLiteManager._get_connection. run_monad.
  destruct (fault E (SqlConnect MGetSummary)); simpl;
    [by eexists _, _|].
  destruct (fault E (SqlExecute MGetSummary)) as [e|]; simpl;
    [|by eexists _, _].
  destruct (is_sqlite_error e); by eexists _, _.
Qed.

Lemma get_provider_run E name model w :
  exists r w1,
    ApiManager.get_provider E name model w = (Ret r, w1)
    /\ turns w1 = turns w /\ summaries w1 = summaries w
    /\ (forall cls, ApiManager.providers E name = Some cls ->
        (name, model) ∈ loaded_instances w \/ provider_init E cls = None ->
        r = Some (cls, model)).
Proof.
  unfold ApiManager.get_provider. run_monad. run_stores.
  destruct (ApiManager.providers E name) as [cls|]; simpl;
    [|by eexists _, _].
  case_bool_decide as Hin; simpl.
  - eexists _, _. split_and!; try done. by intros ? [= ->].
  - destruct (provider_init E cls) eqn:Hinit; simpl.
    + eexists _, _. split_and!; try done. intros ? [= <-] [?|?]; congruence.
    + eexists _, _. split_and!; try done. by intros ? [= ->].
Qed.

Lemma update_summary_run E sid s n w :
  exists r w1,
    SQLiteManager.update_summary E sid s n w = (r, w1)
    /\ turns w1 = turns w
    /\ (summaries w1 = summaries w
        \/ r = Ret tt /\ summaries w1 = <[sid := (s, n)]> (summaries w))
    /\ (fault E (SqlConnect MUpdateSummary) = None ->
        fault E (SqlExecute MUpdateSummary) = None ->
        r = Ret tt /\ summaries w1 = <[sid := (s, n)]> (summaries w)).
Proof.
  unfold SQLiteManager.update_summary, SQLiteManager._get_connection.
  run_monad. run_stores.
  destruct (fault E (SqlConnect MUpdateSummary)); simpl;
    [eexists _, _; split_and!; try done; by left|].
  destruct (fault E (SqlExecute MUpdateSummary)) as [e|]; simpl.
  - destruct (is_sqlite_error e); eexists _, _; split_and!; try done; by left.
  - eexists _, _. split_and!; try done. by right.
Qed.

Lemma trim_history_run E sid w :
  exists r w1,
    RedisManager.trim_history E sid 10 w = (r, w1)
    /\ summaries w1 = summaries w
    /\ (redis_client E = true -> fault E RedisLTrim = None ->
        (10 < length (RedisManager.stored w sid))%nat ->
        RedisManager.stored w1 sid
        = drop (length (RedisManager.stored w sid) - 10)
               (RedisManager.stored w sid)).
Proof.
  unfold RedisManager.trim_history. run_monad. run_stores.
  destruct (redis_client E); simpl; [|by eexists _, _].
  destruct (fault E RedisLTrim) as [e|]; simpl.
  { destruct (is_redis_error e); by eexists _, _. }
  eexists _, _. split_and!; try done. intros _ _ HL.
  unfold RedisList.ltrim.
  change (RedisManager.stored (World (turns w) _ _ _ _ _ _ _ _) sid)
    with (RedisManager.stored w sid).
  change (- (10)) with (- Z.of_nat 10). rewrite !lrange_last by lia.
  destruct (drop (length (RedisManager.stored w sid) - 10)
              (RedisManager.stored w sid)) as [|t kept] eqn:Hk.
  - apply (f_equal length) in Hk. rewrite length_drop in Hk. simpl in Hk. lia.
  - unfold RedisManager.stored at 1. simpl. by rewrite lookup_insert_eq.
Qed.

Lemma generate_response_run E p r pr h w :
  exists resp h' w1,
    Provider.generate_response E p r pr h w = (Ret (resp, h'), w1)
    /\ turns w1 = turns w /\ summaries w1 = summaries w
    /\ (forall text tool_calls,
          p = gpt35 -> api E gpt35 r = Completion (Some text) tool_calls ->
          resp = Message (Some text) tool_calls).
Proof.
  unfold Provider.generate_response. run_monad.
  destruct p as [[] model]; simpl.
  - destruct (api E (OpenAIProvider, model) r) as [text tcs|[] msg] eqn:Hapi;
      simpl; eexists _, _, _; split_and!; try done.
    all: intros ? ? [= ->] Hr; unfold gpt35 in Hr; congruence.
  - destruct (api E (GeminiProvider, model) r) as [[text|] tcs|b msg];
      simpl; eexists _, _, _; split_and!; try done.
Qed.

(** One run of the background summary, from the stores' point of view. *)
Lemma summarize_run E sid w r w' :
  Orchestrator._summarize_and_update_mid_term_memory E sid w = (r, w') ->
  let L := length (RedisManager.stored w sid) in
  (summaries w' = summaries w
   \/ (10 < L)%nat
      /\ exists text, summaries w' = <[sid := (text, L)]> (summaries w))
  /\ ((L <= 10)%nat -> turns w' = turns w /\ summaries w' = summaries w)
  /\ ((10 < L)%nat -> forall text,
      summary_call_succeeds E w text -> summarizer_stores_ok E ->
      summaries w' !! sid = Some (PyStr.strip text, L)
      /\ RedisManager.stored w' sid
         = drop (L - 10) (RedisManager.stored w sid)).
Proof.
  intros Hrun L. revert Hrun.
  unfold Orchestrator._summarize_and_update_mid_term_memory.
  unfold bind at 1.
  destruct (get_recent_turns_all_run E sid w)
    as (r1 & w1 & -> & Ht1 & Hs1 & Hl1 & Hr & Hread).
  assert (Hprovider : forall text o,
    summary_call_succeeds E w text ->
    (forall cls, ApiManager.providers E "openai" = Some cls ->
       ("openai", "gpt-3.5-turbo") ∈ loaded_instances w
       \/ provider_init E cls = None ->
       o = Some (cls, "gpt-3.5-turbo")) ->
    o = Some gpt35).
  { intros text o (Hreg & Hinit & _) Ho. apply (Ho OpenAIProvider); [|done].
    unfold ApiManager.providers. simpl. by rewrite Hreg. }
  destruct Hr as [-> | [-> | [e ->]]]; cbv beta iota.
  2:{ change (Z.of_nat (length (@nil turn)) - 10 <=? 0) with true.
      cbv beta iota. unfold ret. intros [= <- <-].
      split_and!; [by left | done |].
      intros HL text _ (Hc & Hf & _). specialize (Hread Hc Hf).
      injection Hread as Hread.
      unfold L in HL. rewrite <- Hread in HL. simpl in HL. lia. }
  2:{ intros [= <- <-]. split_and!; [by left | done |].
      intros HL text _ (Hc & Hf & _). specialize (Hread Hc Hf). congruence. }
  fold L. destruct (Z.of_nat L - 10 <=? 0) eqn:Hcmp; zbool.
  { unfold ret. intros [= <- <-]. split_and!; [by left | done | lia]. }
  assert (HL : (10 < L)%nat) by lia.
  unfold bind at 1.
  destruct (get_summary_run E sid w1) as (r2 & w2 & -> & Ht2 & Hs2 & Hl2 & Hprev).
  destruct r2 as [previous|e|]; cbv beta iota.
  2,3: intros [= <- <-];
       (split_and!; [left; congruence | lia
                    | intros _ text _ (_ & _ & Hc & Hx & _);
                      specialize (Hprev Hc Hx); congruence]).
  unfold bind at 1.
  destruct (get_provider_run E "openai" "gpt-3.5-turbo" w2)
    as (o & w3 & -> & Ht3 & Hs3 & Hprov).
  rewrite Hl2, Hl1 in Hprov.
  cbv beta iota.
  destruct o as [p|].
  2:{ unfold ret. intros [= <- <-].
      split_and!; [left; congruence | lia|].
      intros _ text Hok _.
      specialize (Hprovider text None Hok Hprov). congruence. }
  unfold try_except, bind at 1.
  match goal with
  | |- context [Provider.generate_response E p ?r ?pr ?h w3] =>
      destruct (generate_response_run E p r pr h w3)
        as (resp & h' & w4 & -> & Ht4 & Hs4 & Hresp)
  end.
  cbv beta iota. unfold bind at 1. simpl fst.
  assert (Hmsg : forall text, summary_call_succeeds E w text ->
                 exists tcs, resp = Message (Some text) tcs).
  { intros text Hok. specialize (Hprovider text (Some p) Hok Hprov).
    injection Hprovider as ->. destruct Hok as (_ & _ & Hapi).
    edestruct Hapi as [tcs Htcs]. exists tcs. by eapply Hresp. }
  assert (Hsame : summaries w4 = summaries w) by congruence.
  destruct resp as [[text0|] tcs|];
    unfold attr_content, method_strip, bind, ret, raise; cbv beta iota.
  2,3: simpl; intros [= <- <-];
       (split_and!; [by left | lia
                    | intros _ text Hok _;
                      destruct (Hmsg text Hok) as [? ?]; congruence]).
  destruct (update_summary_run E sid (PyStr.strip text0) L w4)
    as (r5 & w5 & -> & Ht5 & Hs5 & Hupd).
  destruct (trim_history_run E sid w5) as (r6 & w6 & Htrim & Hs6 & Hkept).
  destruct r5 as [[]|e|]; cbv beta iota.
  - rewrite Htrim.
    intros Hout.
    assert (w' = w6) as -> by (destruct r6; simpl in Hout; congruence).
    clear Hout.
    split_and!.
    + rewrite Hs6. destruct Hs5 as [Hs5|[_ Hs5]]; rewrite Hs5, Hsame.
      * by left.
      * right. split; [done|]. by eexists.
    + lia.
    + intros _ text Hok (Hc & _ & _ & _ & Hcu & Hxu & Hlt).
      destruct (Hmsg text Hok) as [tcs' [= -> ->]].
      destruct (Hupd Hcu Hxu) as [_ Hins].
      rewrite Hs6, Hins, lookup_insert_eq. split; [done|].
      assert (Hst5 : RedisManager.stored w5 sid = RedisManager.stored w sid).
      { apply stored_congr. congruence. }
      rewrite Hst5 in Hkept. exact (Hkept Hc Hlt HL).
  - simpl. intros [= <- <-]. split_and!.
    + destruct Hs5 as [Hs5|[? _]]; [|done]. left. congruence.
    + lia.
    + intros _ text _ (_ & _ & _ & _ & Hcu & Hxu & _).
      destruct (Hupd Hcu Hxu) as [? _]. congruence.
  - simpl. intros [= <- <-]. split_and!.
    + destruct Hs5 as [Hs5|[? _]]; [|done]. left. congruence.
    + lia.
    + intros _ text _ (_ & _ & _ & _ & Hcu & Hxu & _).
      destruct (Hupd Hcu Hxu) as [? _]. congruence.
Qed.

Example summarize_fifteen_turns :
  let E := env_up (Completion (Some " nuevo ") []) toy_loads in
  let w' := snd (Orchestrator._summarize_and_update_mid_term_memory E "s"
                   (buffer_world 15)) in
  summaries w' !! "s" = Some ("nuevo", 15%nat)
  /\ length (RedisManager.stored w' "s") = 10%nat.
Proof. split; reflexivity. Qed.

(** The claim as stated fails: the model call succeeds on a buffer of 11
    turns, SQLite rejects the write, the manager logs it, and the run goes
    on to trim the buffer; the stored watermark is still 5. *)
Lemma C7_counterexample :
  let E := fault_at (SqlExecute MUpdateSummary) SqliteError
             (env_up (Completion (Some "nuevo") []) toy_loads) in
  let w := session_world (replicate 11 (Turn "user" (Some "hola"))) 5 in
  let w' := snd (Orchestrator._summarize_and_update_mid_term_memory E "s" w) in
  length (RedisManager.stored w "s") = 11%nat
  /\ summary_call_succeeds E w "nuevo"
  /\ summaries w' !! "s" = Some ("resumen", 5%nat)
  /\ length (RedisManager.stored w' "s") = 10%nat.
Proof.
  split_and!; try reflexivity.
  split_and!; [reflexivity | by right | intros; by eexists].
Qed.

(** C7, as amended. The background summary does nothing to the summary
    table and to the buffers when the buffer holds at most 10 turns; and
    when it holds [L > 10] turns, the summarization model call succeeds and
    no store operation of the run fails, the stored summary has watermark
    [L] and the buffer is left with exactly its last 10 turns. *)
Theorem C7_summarizer_noop_or_watermark E sid w text :
  let L := length (RedisManager.stored w sid) in
  let w' := snd (Orchestrator._summarize_and_update_mid_term_memory E sid w) in
  ((L <= 10)%nat -> turns w' = turns w /\ summaries w' = summaries w)
  /\ ((10 < L)%nat -> summary_call_succeeds E w text ->
      summarizer_stores_ok E ->
      summaries w' !! sid = Some (PyStr.strip text, L)
      /\ RedisManager.stored w' sid = drop (L - 10) (RedisManager.stored w sid)
      /\ length (RedisManager.stored w' sid) = 10%nat).
Proof.
  intros L w'.
  destruct (summarize_run E sid w _ _ (surjective_pairing _))
    as (_ & Hnoop & Hrun).
  split; [exact Hnoop|]. intros HL Hcall Hok.
  destruct (Hrun HL text Hcall Hok) as [Hs Hb].
  split_and!; [done..|]. subst w'. rewrite Hb, length_drop. fold L. lia.
Qed.

Lemma C7_witness :
  let E := env_up (Completion (Some " nuevo ") []) toy_loads in
  let w' := snd (Orchestrator._summarize_and_update_mid_term_memory E "s"
                   (buffer_world 15)) in
  summaries w' !! "s" = Some ("nuevo", 15%nat)
  /\ RedisManager.stored w' "s"
     = drop 5 (RedisManager.stored (buffer_world 15) "s")
  /\ length (RedisManager.stored w' "s") = 10%nat.
Proof.
  intros E.
  apply (proj2 (C7_summarizer_noop_or_watermark E "s" (buffer_world 15)
                  " nuevo ")).
  - vm_compute. lia.
  - split_and!; [reflexivity | by right | intros; by eexists].
  - by split_and!.
Defined.

(** ** The watermark over several runs *)

(** The claim as stated fails: 15 turns are summarized (watermark 15, 10
    turns left), the next request adds its two turns, and the next summary
    is stored with watermark 12. *)
Lemma C2_counterexample :
  let E := env_up (Completion (Some "nuevo") []) toy_loads in
  let w1 := snd (Orchestrator._summarize_and_update_mid_term_memory E "s"
                   (buffer_world 15)) in
  let w2 := snd (RedisManager.add_turn E "s" (Turn "user" (Some "otra")) w1) in
  let w3 := snd (RedisManager.add_turn E "s" (Turn "assistant" (Some "ya")) w2) in
  let w4 := snd (Orchestrator._summarize_and_update_mid_term_memory E "s" w3) in
  summaries w1 !! "s" = Some ("nuevo", 15%nat)
  /\ summaries w4 !! "s" = Some ("nuevo", 12%nat).
Proof. split; reflexivity. Qed.

(** C2, as amended. A run of the background summary either leaves the
    summary table as it was or replaces the session's summary, and then the
    watermark it writes is the length of the recent-turn buffer the run
    read, which is greater than 10 (so it is at least the watermark it
    replaces exactly when the buffer is at least that long). *)
Theorem C2_watermark_is_buffer_length E sid w :
  let L := length (RedisManager.stored w sid) in
  let w' := snd (Orchestrator._summarize_and_update_mid_term_memory E sid w) in
  summaries w' = summaries w
  \/ (10 < L)%nat
     /\ exists text, summaries w' = <[sid := (text, L)]> (summaries w).
Proof.
  intros L w'.
  by destruct (summarize_run E sid w _ _ (surjective_pairing _)) as (H & _).
Qed.

(** ** The request handler *)




Lemma add_turn_calls E sid t w :
  calls (snd (RedisManager.add_turn E sid t w)) = calls w ++ [RedisAddTurn sid t].
Proof.
  unfold RedisManager.add_turn. run_monad. run_stores.
  destruct (redis_client E); simpl; [|done].
  destruct (fault E (RedisRPush t)) as [e|]; simpl; [|done].
  by destruct (is_redis_error e).
Qed.

Lemma add_entry_calls E sid text i r w :
  calls (snd (ChromaManager.add_entry E sid text i r w))
  = calls w ++ [ChromaAddEntry sid text i r].
Proof.
  unfold ChromaManager.add_entry. run_monad. run_stores.
  destruct (chroma_collection E); simpl; [|done].
  by destruct (fault E ChromaAdd).
Qed.

Lemma add_message_calls E sid i r text ents w :
  calls (snd (Neo4jManager.add_message_and_entities E sid i r text ents w))
  = calls w ++ [NeoAddMessage sid i r text ents].
Proof.
  unfold Neo4jManager.add_message_and_entities. run_monad. run_stores.
  destruct (neo4j_driver E); simpl; [|done].
  by destruct (fault E (NeoWrite i)).
Qed.


(** What [save_turn] asks of the tiers when it runs to its end: both turns
    to Redis, the assistant's to Chroma and, with a graph manager, the
    entity extraction on the assistant's text followed by both turns to
    Neo4j. *)
Lemma save_turn_calls E sid user_prompt text uid aid user_entities w w' :
  ContextEngine.save_turn E sid user_prompt text uid aid user_entities w
  = (Ret tt, w') ->
  exists tr assistant_entities,
    calls w' =
      calls w
      ++ [RedisAddTurn sid (Turn "user" (Some user_prompt));
          RedisAddTurn sid (Turn "assistant" text);
          ChromaAddEntry sid text aid "assistant"]
      ++ (if neo4j_manager E then
            tr ++ [NeoAddMessage sid uid "user" (Some user_prompt) user_entities;
                   NeoAddMessage sid aid "assistant" text assistant_entities]
          else [])
    /\ Forall (fun c => no_turn_write c /\ no_chat_call c) tr.
Proof.
  unfold ContextEngine.save_turn.
  unfold bind at 1.
  pose proof (add_turn_calls E sid (Turn "user" (Some user_prompt)) w) as C1.
  destruct (RedisManager.add_turn E sid _ w) as [[[]|e|] w1];
    [|discriminate..]. simpl in C1.
  unfold bind at 1.
  pose proof (add_turn_calls E sid (Turn "assistant" text) w1) as C2.
  destruct (RedisManager.add_turn E sid _ w1) as [[[]|e|] w2];
    [|discriminate..]. simpl in C2.
  unfold bind at 1.
  pose proof (add_entry_calls E sid text aid "assistant" w2) as C3.
  destruct (ChromaManager.add_entry E sid text aid "assistant" w2)
    as [[[]|e|] w3]; [|discriminate..]. simpl in C3.
  destruct (neo4j_manager E).
  - unfold bind at 1.
    pose proof (extract_emits E (fun c => no_turn_write c /\ no_chat_call c)
                  (conj eq_refl eq_refl) (fun _ H => conj eq_refl H)
                  (py_format text) w3) as (tr & C4 & Htr).
    destruct (ContextEngine._extract_entities_with_gpt E (py_format text) w3)
      as [[ents|e|] w4]; [|discriminate..]. simpl in C4.
    unfold bind at 1.
    pose proof (add_message_calls E sid uid "user" (Some user_prompt)
                  user_entities w4) as C5.
    destruct (Neo4jManager.add_message_and_entities E sid uid _ _ _ w4)
      as [[[]|e|] w5]; [|discriminate..]. simpl in C5.
    pose proof (add_message_calls E sid aid "assistant" text ents w5) as C6.
    intros Hrun. rewrite Hrun in C6. simpl in C6.
    exists tr, ents. split; [|done].
    rewrite C6, C5, C4, C3, C2, C1, <- !app_assoc. done.
  - unfold ret. intros [= <-]. exists [], []. split; [|done].
    rewrite C3, C2, C1, <- !app_assoc. done.
Qed.



Example handle_request_with_one_tool_round :
  let w := buffer_world 0 in
  let r := Orchestrator.handle_user_request tool_env 3 "s" "hola"
             (LLMConfig "openai" "gpt-4o-mini" "0.7" 1500) w in
  fst r = Ret (ResponseReply (Some "fin") false)
  /\ List.filter is_chat_call (new_calls w (snd r))
     = [GenerateResponse (OpenAIProvider, "gpt-4o-mini") (Chat 0);
        GenerateResponse (OpenAIProvider, "gpt-4o-mini") (Chat 1)]
  /\ RedisManager.stored (snd r) "s"
     = [Turn "user" (Some "hola"); Turn "assistant" (Some "fin")].
Proof. repeat split; vm_compute; reflexivity. Qed.


(** ** A failing model call in the chat round *)

(** With the OpenAI provider a failed call comes back as a message that
    carries the error text, and the request is answered with it. *)
Example openai_failure_is_answered :
  fst (Orchestrator.handle_user_request
         (env_up (ApiFails true "timeout") toy_loads) 3 "s" "hola"
         (LLMConfig "openai" "gpt-4o-mini" "0.7" 1500) (buffer_world 0))
  = Ret (ResponseReply (Some "Error de OpenAI: timeout") false).
Proof. vm_compute. reflexivity. Qed.

(** The handler's own fallback, for a provider that hands back nothing. *)
Example no_response_leaves_the_loop E fuel p n h w :
  Orchestrator.tool_loop E fuel p n None h w = (Ret None, w).
Proof. by destruct fuel. Qed.

(** C4 fails with the Gemini provider: [GeminiProvider.generate_response]
    returns a dictionary, also for the failed call, and the handler reads
    [response_message.tool_calls] from it: the request ends in an
    [AttributeError] instead of an answer. *)
Theorem C4_gemini_failure_raises :
  fst (Orchestrator.handle_user_request
         (env_up (ApiFails false "timeout") toy_loads) 3 "s" "hola"
         (LLMConfig "gemini" "gemini-pro" "0.7" 800) (buffer_world 0))
  = Raise AttributeError.
Proof. vm_compute. reflexivity. Qed.

(** The same holds for every request served by the Gemini provider,
    whatever the model answers. *)
Lemma gemini_response_raises E fuel model n r pr h w :
  exists w',
    (rh <- Provider.generate_response E (GeminiProvider, model) r pr h ;;
     Orchestrator.tool_loop E fuel (GeminiProvider, model) n (Some (fst rh))
       (snd rh)) w
    = (Raise AttributeError, w').
Proof.
  unfold Provider.generate_response. run_monad.
  destruct (api E (GeminiProvider, model) r) as [[text|] tcs|b msg];
    destruct fuel; simpl; by eexists.
Qed.

(** * Further properties of the code *)

(** ** Frames: what a method leaves alone *)

Section Keeps.
Context {X : Type} (proj : world -> X).

Lemma keeps_bind {A B} (m : M A) (k : A -> M B) :
  keeps proj m -> (forall a, keeps proj (k a)) -> keeps proj (bind m k).
Proof.
  intros Hm Hk w. unfold bind. specialize (Hm w).
  destruct (m w) as [[a|e|] w1]; simpl in *; [|done..].
  by rewrite Hk.
Qed.

Lemma keeps_try_except {A} (m : M A) caught (h : exn -> M A) :
  keeps proj m -> (forall e, keeps proj (h e)) ->
  keeps proj (try_except m caught h).
Proof.
  intros Hm Hh w. unfold try_except. specialize (Hm w).
  destruct (m w) as [[a|e|] w1]; simpl in *; [done| |done].
  destruct (caught e); [|done]. by rewrite Hh.
Qed.

Lemma keeps_for_each {A B} (xs : list A) (acc : B) body :
  (forall b a, keeps proj (body b a)) -> keeps proj (for_each xs acc body).
Proof.
  intros Hb. revert acc. induction xs as [|x xs IH]; intros acc; simpl.
  - by intros w.
  - apply keeps_bind; [apply Hb | intros; apply IH].
Qed.

Lemma keeps_backend E s : keeps proj (backend E s).
Proof. unfold backend. by destruct (fault E s); intros w. Qed.

Lemma keeps_attr_content r : keeps proj (attr_content r).
Proof. by destruct r; intros w. Qed.

Lemma keeps_attr_tool_calls r : keeps proj (attr_tool_calls r).
Proof. by destruct r; intros w. Qed.

Lemma keeps_method_strip x : keeps proj (method_strip x).
Proof. by destruct x; intros w. Qed.
End Keeps.

(** One step of the routine proof of a frame: go through binds, handlers,
    loops and branches; a leaf that only logs, or writes elsewhere, keeps
    the part by computation. *)
Ltac keeps_step :=
  first
    [ apply keeps_bind | apply keeps_try_except | apply keeps_for_each
    | apply keeps_backend | apply keeps_attr_content
    | apply keeps_attr_tool_calls | apply keeps_method_strip
    | progress intros
    | match goal with
      | |- keeps _ (if ?b then _ else _) => destruct b
      | |- keeps _ (match ?x with _ => _ end) => destruct x
      end
    | solve [intros ?; reflexivity] ].

Ltac keeps_auto := repeat keeps_step.

Lemma get_provider_keeps_tiers E name model :
  keeps tiers (ApiManager.get_provider E name model).
Proof. unfold ApiManager.get_provider. keeps_auto. Qed.

Lemma generate_response_keeps {X} (proj : world -> X) E p r pr h :
  (forall c w, proj (snd (log c w)) = proj w) ->
  keeps proj (Provider.generate_response E p r pr h).
Proof.
  intros Hlog. unfold Provider.generate_response.
  apply keeps_bind; [intros w; apply Hlog|]. intros _.
  destruct (fst p); repeat (case_match; try by intros w).
Qed.

Lemma extract_keeps_tiers E text :
  keeps tiers (ContextEngine._extract_entities_with_gpt E text).
Proof.
  unfold ContextEngine._extract_entities_with_gpt.
  repeat first [ apply get_provider_keeps_tiers
               | apply generate_response_keeps; reflexivity
               | keeps_step ].
Qed.

Lemma synthesize_keeps_tiers E snippets :
  keeps tiers (ContextEngine._synthesize_context_with_gpt E snippets).
Proof.
  unfold ContextEngine._synthesize_context_with_gpt.
  repeat first [ apply get_provider_keeps_tiers
               | apply generate_response_keeps; reflexivity
               | keeps_step ].
Qed.

Lemma build_augmented_prompt_keeps_tiers E sid user_prompt directives w :
  tiers (snd (ContextEngine.build_augmented_prompt E sid user_prompt
                directives w))
  = tiers w.
Proof.
  revert w. change (keeps tiers (ContextEngine.build_augmented_prompt E sid
                                   user_prompt directives)).
  unfold ContextEngine.build_augmented_prompt,
    ContextEngine.relevant_context_snippets, ContextEngine.search_chroma,
    ContextEngine.search_neo4j, SQLiteManager.get_summary,
    SQLiteManager._get_connection, ChromaManager.search_similar,
    Neo4jManager.get_related_entities, RedisManager.get_recent_turns.
  repeat first [ apply extract_keeps_tiers | apply synthesize_keeps_tiers
               | keeps_step ].
Qed.

(** X1. Building the augmented prompt only reads: whatever the backends
    answer and whether it returns or raises, the content of the four memory
    tiers is afterwards what it was before. *)
Theorem build_augmented_prompt_read_only E sid user_prompt directives w :
  tiers (snd (ContextEngine.build_augmented_prompt E sid user_prompt
                directives w))
  = tiers w.
Proof. exact (build_augmented_prompt_keeps_tiers E sid user_prompt directives w). Qed.

(** ** The request handler and the process-wide settings *)

Lemma run_tool_call_keeps {X} (proj : world -> X) E h tc :
  (forall c w, proj (snd (log c w)) = proj w) ->
  keeps proj (Orchestrator.run_tool_call E h tc).
Proof.
  intros Hlog. unfold Orchestrator.run_tool_call.
  repeat first [ solve [intros w; apply Hlog] | solve [by intros w]
               | keeps_step ].
Qed.

Lemma tool_loop_keeps {X} (proj : world -> X) E fuel p n resp h :
  (forall c w, proj (snd (log c w)) = proj w) ->
  keeps proj (Orchestrator.tool_loop E fuel p n resp h).
Proof.
  intros Hlog. revert n resp h.
  induction fuel as [|fuel IH]; intros n resp h; simpl.
  - destruct resp as [message|]; [|by intros w].
    apply keeps_bind; [apply keeps_attr_tool_calls|].
    by intros [|tc tcs] w.
  - destruct resp as [message|]; [|by intros w].
    apply keeps_bind; [apply keeps_attr_tool_calls|].
    intros [|tc tcs]; [by intros w|].
    apply keeps_bind.
    { apply keeps_for_each. intros. by apply run_tool_call_keeps. }
    intros h'. apply keeps_bind; [by apply generate_response_keeps|].
    intros rh. apply IH.
Qed.

(** Everything [handle_user_request] does after storing the settings. *)
Ltac handler_frame :=
  unfold ContextEngine.build_augmented_prompt,
    ContextEngine.relevant_context_snippets, ContextEngine.search_chroma,
    ContextEngine.search_neo4j, ContextEngine.save_turn,
    ContextEngine._extract_entities_with_gpt,
    ContextEngine._synthesize_context_with_gpt,
    SQLiteManager.get_summary, SQLiteManager._get_connection,
    ChromaManager.search_similar, ChromaManager.add_entry,
    Neo4jManager.get_related_entities, Neo4jManager.add_message_and_entities,
    RedisManager.get_recent_turns, RedisManager.add_turn,
    RedisManager.client_llen, ApiManager.get_provider;
  repeat first [ apply tool_loop_keeps; reflexivity
               | apply generate_response_keeps; reflexivity
               | keeps_step ].

(** X2. A request leaves its LLM settings behind: whatever happens to the
    request (answer, error reply, exception), the process-wide
    configuration afterwards is the one the request carried. *)
Theorem handle_user_request_leaves_its_settings
    E fuel sid user_prompt llm_settings w :
  config (snd (Orchestrator.handle_user_request E fuel sid user_prompt
                 llm_settings w))
  = llm_settings.
Proof.
  unfold Orchestrator.handle_user_request, Orchestrator.update_llm_settings.
  unfold bind at 1. unfold set_config at 1. cbv beta iota.
  match goal with
  | |- config (snd (?m ?w0)) = _ =>
      transitivity (config w0); [|reflexivity];
      generalize w0; clear w; change (keeps config m)
  end.
  handler_frame.
Qed.

(** X3. Handling a request never changes the two SQLite tables: the rolling
    summary and the session records are only read. *)
Theorem handle_user_request_keeps_sqlite
    E fuel sid user_prompt llm_settings w :
  relational (snd (Orchestrator.handle_user_request E fuel sid user_prompt
                     llm_settings w))
  = relational w.
Proof.
  unfold Orchestrator.handle_user_request, Orchestrator.update_llm_settings.
  unfold bind at 1. unfold set_config at 1. cbv beta iota.
  match goal with
  | |- relational (snd (?m ?w0)) = _ =>
      transitivity (relational w0); [|reflexivity];
      generalize w0; clear w; change (keeps relational m)
  end.
  handler_frame.
Qed.

(** Only the tool loop can be cut off. *)
Section Completes.





End Completes.





(** ** Persisting a turn *)

Lemma bind_ret_inv {A B} (m : M A) (k : A -> M B) w b w' :
  bind m k w = (Ret b, w') ->
  exists a w1, m w = (Ret a, w1) /\ k a w1 = (Ret b, w').
Proof.
  unfold bind. destruct (m w) as [[a|e|] w1]; [|discriminate..].
  intros H. by exists a, w1.
Qed.

Lemma add_turn_run E sid t w :
  redis_client E = true -> fault E (RedisRPush t) = None ->
  exists w1,
    RedisManager.add_turn E sid t w = (Ret tt, w1)
    /\ turns w1 = <[sid := RedisManager.stored w sid ++ [t]]> (turns w).
Proof.
  intros Hc Hf. unfold RedisManager.add_turn. run_monad. run_stores.
  rewrite Hc, Hf. simpl. by eexists.
Qed.

Lemma save_turn_tail_keeps_turns E sid user_prompt text uid aid ents :
  keeps turns
    (ChromaManager.add_entry E sid text aid "assistant" ;;;
     if neo4j_manager E then
       assistant_entities <-
         ContextEngine._extract_entities_with_gpt E (py_format text) ;;
       Neo4jManager.add_message_and_entities E sid uid "user"
         (Some user_prompt) ents ;;;
       Neo4jManager.add_message_and_entities E sid aid "assistant" text
         assistant_entities
     else ret tt).
Proof.
  unfold ChromaManager.add_entry, Neo4jManager.add_message_and_entities,
    ContextEngine._extract_entities_with_gpt, ApiManager.get_provider.
  repeat first [ apply generate_response_keeps; reflexivity | keeps_step ].
Qed.

Lemma save_turn_run
    E sid user_prompt text uid aid ents w :
  redis_client E = true ->
  fault E (RedisRPush (Turn "user" (Some user_prompt))) = None ->
  fault E (RedisRPush (Turn "assistant" text)) = None ->
  let w' := snd (ContextEngine.save_turn E sid user_prompt text uid aid ents w) in
  RedisManager.stored w' sid
  = RedisManager.stored w sid
    ++ [Turn "user" (Some user_prompt); Turn "assistant" text]
  /\ forall other, other <> sid -> turns w' !! other = turns w !! other.
Proof.
  intros Hc Hu Ha w'. subst w'.
  destruct (ContextEngine.save_turn E sid user_prompt text uid aid ents w)
    as [r w'] eqn:Hrun.
  simpl. revert Hrun. unfold ContextEngine.save_turn.
  unfold bind at 1.
  destruct (add_turn_run E sid (Turn "user" (Some user_prompt)) w Hc Hu)
    as (w1 & -> & T1).
  unfold bind at 1.
  destruct (add_turn_run E sid (Turn "assistant" text) w1 Hc Ha)
    as (w2 & -> & T2).
  cbv beta iota zeta. intros Hrun.
  pose proof (save_turn_tail_keeps_turns E sid user_prompt text uid aid ents
                w2) as T3.
  rewrite Hrun in T3. simpl in T3.
  unfold RedisManager.stored in *. rewrite T3, T2, T1. split.
  - rewrite !lookup_insert_eq. simpl. by rewrite <- app_assoc.
  - intros other Hne. by rewrite !lookup_insert_ne.
Qed.

(** X5. With Redis up and both pushes accepted, [save_turn] appends exactly
    the user turn and then the assistant turn to the session's buffer,
    whatever happens afterwards in Chroma, in the entity extraction or in
    Neo4j; the buffers of the other sessions are not touched. *)
Theorem save_turn_appends_both_turns
    E sid user_prompt text uid aid ents w :
  redis_client E = true ->
  fault E (RedisRPush (Turn "user" (Some user_prompt))) = None ->
  fault E (RedisRPush (Turn "assistant" text)) = None ->
  let w' := snd (ContextEngine.save_turn E sid user_prompt text uid aid ents w) in
  RedisManager.stored w' sid
  = RedisManager.stored w sid
    ++ [Turn "user" (Some user_prompt); Turn "assistant" text]
  /\ forall other, other <> sid -> turns w' !! other = turns w !! other.
Proof. exact (save_turn_run E sid user_prompt text uid aid ents w). Qed.

Lemma save_turn_appends_witness :
  let E := env_up (Completion (Some "[]") []) toy_loads in
  let w := buffer_world 3 in
  let w' := snd (ContextEngine.save_turn E "s" "hola" (Some "fin") "s_u" "s_a"
                   [] w) in
  RedisManager.stored w' "s"
  = RedisManager.stored w "s"
    ++ [Turn "user" (Some "hola"); Turn "assistant" (Some "fin")]
  /\ forall other, other <> "s" -> turns w' !! other = turns w !! other.
Proof.
  intros E w.
  apply (save_turn_appends_both_turns E "s" "hola" (Some "fin") "s_u" "s_a"
           [] w); reflexivity.
Defined.

Lemma client_llen_inv E sid w n w' :
  RedisManager.client_llen E sid w = (Ret n, w') ->
  redis_client E = true /\ n = length (RedisManager.stored w sid)
  /\ turns w' = turns w.
Proof.
  unfold RedisManager.client_llen. run_monad.
  destruct (redis_client E); simpl; [|discriminate].
  destruct (fault E RedisLLenCmd); simpl; [discriminate|].
  by intros [= <- <-].
Qed.

Lemma tiers_turns w w' : tiers w' = tiers w -> turns w' = turns w.
Proof. unfold tiers. congruence. Qed.

Lemma handle_user_request_buffer_run
    E fuel sid user_prompt llm_settings w text scheduled w' :
  Orchestrator.handle_user_request E fuel sid user_prompt llm_settings w
  = (Ret (ResponseReply text scheduled), w') ->
  fault E (RedisRPush (Turn "user" (Some user_prompt))) = None ->
  fault E (RedisRPush (Turn "assistant" text)) = None ->
  RedisManager.stored w' sid
  = RedisManager.stored w sid
    ++ [Turn "user" (Some user_prompt); Turn "assistant" text]
  /\ scheduled = (9 <=? length (RedisManager.stored w sid))%nat.
Proof.
  unfold Orchestrator.handle_user_request, Orchestrator.update_llm_settings.
  unfold bind at 1. unfold set_config at 1. cbv beta iota.
  set (w0 := World _ _ _ _ _ _ _ _ _).
  assert (T0 : turns w0 = turns w) by reflexivity. clearbody w0.
  unfold bind at 1.
  pose proof (tiers_turns _ _ (build_augmented_prompt_keeps_tiers E sid
                user_prompt (intent E user_prompt) w0)) as T1.
  destruct (ContextEngine.build_augmented_prompt E sid user_prompt _ w0)
    as [[ctx|e|] w1]; [|discriminate..]. simpl in T1.
  unfold bind at 1. unfold get_world at 1. cbv beta iota.
  unfold bind at 1.
  pose proof (tiers_turns _ _ (get_provider_keeps_tiers E
                (provider_name (config w1)) (model_name (config w1)) w1)) as T2.
  destruct (ApiManager.get_provider E _ _ w1) as [[[p|]|e|] w2];
    [|discriminate..]. simpl in T2.
  unfold bind at 1.
  match goal with
  | |- context [Provider.generate_response E p ?r ?pr ?h w2] =>
      pose proof (generate_response_keeps turns E p r pr h
                    (fun _ _ => eq_refl) w2) as T3;
      destruct (Provider.generate_response E p r pr h w2)
        as [[rh|e|] w3]; [|discriminate..]
  end. simpl in T3.
  unfold bind at 1.
  pose proof (tool_loop_keeps turns E fuel p 1 (Some (fst rh)) (snd rh)
                (fun _ _ => eq_refl) w3) as T4.
  destruct (Orchestrator.tool_loop E fuel p 1 _ _ w3) as [[final|e|] w4];
    [|discriminate..]. simpl in T4.
  unfold bind at 1.
  assert (Hfinal : exists r5, (match final with
            | Some message => attr_content message
            | None => ret (Some "No se recibió respuesta del LLM.")
            end) w4 = (r5, w4)).
  { destruct final as [[]|]; by eexists. }
  destruct Hfinal as [r5 ->]. destruct r5 as [text'|e|]; [|discriminate..].
  unfold bind at 1.
  pose proof (save_turn_run E sid user_prompt text'
                (sid +:+ "_" +:+ uuid_user E)
                (sid +:+ "_" +:+ uuid_assistant E) (entities ctx) w4) as Hsave.
  destruct (ContextEngine.save_turn E sid user_prompt text' _ _ _ w4)
    as [[[]|e|] w5]; [|discriminate..]. simpl in Hsave.
  unfold bind at 1.
  pose proof (client_llen_inv E sid w5) as Hlen.
  destruct (RedisManager.client_llen E sid w5) as [[n|e|] w6];
    [|discriminate..].
  destruct (Hlen n w6 eq_refl) as (Hc & -> & T6).
  unfold ret. intros [= <- <- <-] Hu Ha.
  destruct (Hsave Hc Hu Ha) as [Hst _].
  assert (Hw : RedisManager.stored w4 sid = RedisManager.stored w sid).
  { apply stored_congr. congruence. }
  rewrite (stored_congr _ _ sid T6), Hst, Hw. split; [done|].
  rewrite length_app. simpl length.
  apply Bool.eq_iff_eq_true. rewrite Nat.ltb_lt, Nat.leb_le. lia.
Qed.

(** X6. When a request is answered and Redis accepted both pushes, the
    buffer of the session holds the turns it held before followed by the
    user turn and the assistant turn, and the background summary is
    scheduled exactly when that makes more than 10 turns, that is, when the
    buffer held at least 9 before the request. *)
Theorem summary_scheduled_from_nine_turns
    E fuel sid user_prompt llm_settings w text scheduled w' :
  Orchestrator.handle_user_request E fuel sid user_prompt llm_settings w
  = (Ret (ResponseReply text scheduled), w') ->
  fault E (RedisRPush (Turn "user" (Some user_prompt))) = None ->
  fault E (RedisRPush (Turn "assistant" text)) = None ->
  RedisManager.stored w' sid
  = RedisManager.stored w sid
    ++ [Turn "user" (Some user_prompt); Turn "assistant" text]
  /\ scheduled = (9 <=? length (RedisManager.stored w sid))%nat.
Proof. exact (handle_user_request_buffer_run E fuel sid user_prompt llm_settings w text scheduled w'). Qed.

Lemma summary_scheduled_witness :
  let E := env_up (Completion (Some "[]") []) toy_loads in
  let r := Orchestrator.handle_user_request E 3 "s" "hola"
             (LLMConfig "openai" "gpt-4o-mini" "0.7" 1500) (buffer_world 9) in
  RedisManager.stored (snd r) "s"
  = RedisManager.stored (buffer_world 9) "s"
    ++ [Turn "user" (Some "hola"); Turn "assistant" (Some "[]")]
  /\ true = (9 <=? length (RedisManager.stored (buffer_world 9) "s"))%nat.
Proof.
  intros E r.
  apply (summary_scheduled_from_nine_turns E 3 "s" "hola"
           (LLMConfig "openai" "gpt-4o-mini" "0.7" 1500) (buffer_world 9)
           (Some "[]") true (snd r));
    vm_compute; reflexivity.
Defined.

(** ** What the request handler leaves in the tiers *)









(** ** Deleting a session *)

Lemma filter_other {A} (f : A -> string) (sid other : string) (l : list A) :
  other <> sid ->
  filter (fun x => f x = other) (filter (fun x => f x <> sid) l)
  = filter (fun x => f x = other) l.
Proof.
  intros Hne. induction l as [|x l IH]; [done|].
  rewrite (filter_cons (fun x => f x <> sid)).
  destruct (decide (f x <> sid)) as [Hx|Hx].
  - rewrite !filter_cons. destruct (decide (f x = other)); by rewrite IH.
  - rewrite filter_cons. destruct (decide (f x = other)) as [Hy|Hy]; [|done].
    exfalso. apply Hx. congruence.
Qed.

Ltac slice_leaf :=
  intros ?; unfold session_slice; simpl;
  rewrite ?lookup_delete_ne, ?lookup_insert_ne by done;
  rewrite ?filter_other by done;
  rewrite ?(filter_other (fun s : string => s)) by done;
  reflexivity.

Section OtherSession.
Context (E : env) (sid other : string) (Hne : other <> sid).

Lemma delete_session_keeps_other :
  keeps (session_slice other) (SQLiteManager.delete_session E sid).
Proof.
  assert (sid <> other) by done.
  unfold SQLiteManager.delete_session, SQLiteManager._get_connection.
  repeat first [ solve [slice_leaf] | keeps_step ].
Qed.

Lemma delete_session_history_keeps_other :
  keeps (session_slice other) (RedisManager.delete_session_history E sid).
Proof.
  assert (sid <> other) by done.
  unfold RedisManager.delete_session_history.
  repeat first [ solve [slice_leaf] | keeps_step ].
Qed.

Lemma delete_session_entries_keeps_other :
  keeps (session_slice other) (ChromaManager.delete_session_entries E sid).
Proof.
  unfold ChromaManager.delete_session_entries.
  repeat first [ solve [slice_leaf] | keeps_step ].
Qed.

Lemma delete_session_graph_keeps_other :
  keeps (session_slice other) (Neo4jManager.delete_session_graph E sid).
Proof.
  unfold Neo4jManager.delete_session_graph.
  repeat first [ solve [slice_leaf] | keeps_step ].
Qed.

(** X7. Deleting a session leaves every other session as it was in all four
    tiers, whether the deletion succeeds, fails half-way or is reported as
    failed. *)
Theorem delete_session_data_is_scoped w :
  session_slice other (snd (Orchestrator.delete_session_data E sid w))
  = session_slice other w.
Proof.
  revert w. change (keeps (session_slice other)
                      (Orchestrator.delete_session_data E sid)).
  unfold Orchestrator.delete_session_data.
  repeat first [ apply delete_session_keeps_other
               | apply delete_session_history_keeps_other
               | apply delete_session_entries_keeps_other
               | apply delete_session_graph_keeps_other
               | keeps_step ].
Qed.
End OtherSession.

Lemma delete_session_data_is_scoped_witness :
  let E := fault_at RedisDel OtherError
             (env_up (Completion (Some "ok") []) toy_loads) in
  session_slice "t" (snd (Orchestrator.delete_session_data E "s"
                            (session_world [] 3)))
  = session_slice "t" (session_world [] 3).
Proof.
  intros E. apply (delete_session_data_is_scoped E "s" "t"). discriminate.
Defined.

(** The graph writes keep the messages hanging from their sessions: a
    message is only ever created under the node of its session. *)
Lemma add_message_keeps_graph_linked E sid turn_id role text ents w :
  graph_linked w ->
  graph_linked (snd (Neo4jManager.add_message_and_entities E sid turn_id role
                       text ents w)).
Proof.
  unfold graph_linked, Neo4jManager.add_message_and_entities,
    Neo4jManager._create_message_and_link_entities.
  run_monad. run_stores. intros Hlinked.
  destruct (neo4j_driver E); simpl; [|done].
  destruct (fault E (NeoWrite turn_id)); simpl; [done|].
  case_bool_decide as Hin; [|done].
  apply Forall_app. split.
  - rewrite Forall_forall in *.
    intros m [_ Hm]%list_elem_of_filter. by apply Hlinked.
  - by repeat constructor.
Qed.

(** X8. With the four tiers up and no delete command failing, on a graph
    whose messages hang from the nodes of their sessions, the cascade reports
    success and the session is gone from every tier: no summary, no session
    record, no buffer, no document, no session node and no message of the
    session are left; and the messages left still hang from their
    sessions. *)
Theorem delete_session_data_deletes_everything E sid w :
  deletion_stores_ok E ->
  graph_linked w ->
  let r := Orchestrator.delete_session_data E sid w in
  fst r = Ret true
  /\ all_tiers_deleted sid (snd r)
  /\ graph_linked (snd r).
Proof.
  intros (H1 & H2 & H3 & H4 & H5 & H6 & H7 & H8 & H9) Hlinked.
  unfold Orchestrator.delete_session_data, SQLiteManager.delete_session,
    SQLiteManager._get_connection, RedisManager.delete_session_history,
    ChromaManager.delete_session_entries, Neo4jManager.delete_session_graph.
  run_monad. run_stores.
  rewrite H1, H2, H3, H4, H5, H6, H7, H8, H9. simpl.
  assert (Hdocs : forall l : list chroma_doc,
            Forall (fun d => doc_session d <> sid)
                   (filter (fun x => doc_session x <> sid) l)).
  { intros l. apply Forall_forall. by intros x [? _]%list_elem_of_filter. }
  unfold graph_linked in *. rewrite Forall_forall in Hlinked.
  case_bool_decide as Hin; simpl.
  - split; [done|]. unfold all_tiers_deleted, relational_deleted,
      buffer_deleted, documents_deleted, graph_deleted. simpl.
    split_and!; try apply lookup_delete_eq; [apply Hdocs| | |].
    + by intros [? _]%list_elem_of_filter.
    + apply Forall_forall. by intros m [? _]%list_elem_of_filter.
    + apply Forall_forall. intros m [Hm Hel]%list_elem_of_filter.
      apply list_elem_of_filter. split; [done | by apply Hlinked].
  - split; [done|]. unfold all_tiers_deleted, relational_deleted,
      buffer_deleted, documents_deleted, graph_deleted. simpl.
    split_and!; try apply lookup_delete_eq; [apply Hdocs | done | |].
    + apply Forall_forall. intros m Hel Hm. apply Hin. rewrite <- Hm.
      by apply Hlinked.
    + by apply Forall_forall.
Qed.

Lemma delete_session_data_deletes_everything_witness :
  let r := Orchestrator.delete_session_data
             (env_up (Completion (Some "ok") []) toy_loads) "s"
             (session_world [Turn "user" (Some "hola")] 12) in
  fst r = Ret true
  /\ all_tiers_deleted "s" (snd r)
  /\ graph_linked (snd r).
Proof.
  apply (delete_session_data_deletes_everything
           (env_up (Completion (Some "ok") []) toy_loads) "s").
  - by repeat split.
  - repeat constructor.
Defined.

(** ** The background summary, continued *)

Section SummaryOtherSession.
Context (E : env) (sid other : string) (Hne : other <> sid).

Lemma update_summary_keeps_other s n :
  keeps (session_slice other) (SQLiteManager.update_summary E sid s n).
Proof.
  assert (sid <> other) by done.
  unfold SQLiteManager.update_summary, SQLiteManager._get_connection.
  repeat first [ solve [slice_leaf] | keeps_step ].
Qed.

Lemma trim_history_keeps_other n :
  keeps (session_slice other) (RedisManager.trim_history E sid n).
Proof.
  assert (sid <> other) by done.
  unfold RedisManager.trim_history.
  repeat first
    [ solve [slice_leaf]
    | solve [intros ?; unfold session_slice; simpl; case_match;
             rewrite ?lookup_delete_ne, ?lookup_insert_ne by done;
             reflexivity]
    | keeps_step ].
Qed.

(** X9. A run of the background summary for one session leaves every other
    session as it was in all four tiers, and it never touches the Chroma
    documents or the Neo4j graph. *)
Theorem summarizer_is_scoped w :
  let w' := snd (Orchestrator._summarize_and_update_mid_term_memory E sid w) in
  session_slice other w' = session_slice other w
  /\ documents w' = documents w
  /\ graph_sessions w' = graph_sessions w
  /\ graph_messages w' = graph_messages w.
Proof.
  simpl. split_and!; revert w.
  - change (keeps (session_slice other)
              (Orchestrator._summarize_and_update_mid_term_memory E sid)).
    unfold Orchestrator._summarize_and_update_mid_term_memory,
      RedisManager.get_recent_turns, SQLiteManager.get_summary,
      SQLiteManager._get_connection, ApiManager.get_provider.
    repeat first [ apply update_summary_keeps_other
                 | apply trim_history_keeps_other
                 | apply generate_response_keeps; reflexivity
                 | keeps_step ].
  - change (keeps documents
              (Orchestrator._summarize_and_update_mid_term_memory E sid)).
    unfold Orchestrator._summarize_and_update_mid_term_memory,
      RedisManager.get_recent_turns, SQLiteManager.get_summary,
      SQLiteManager.update_summary, RedisManager.trim_history,
      SQLiteManager._get_connection, ApiManager.get_provider.
    repeat first [ apply generate_response_keeps; reflexivity | keeps_step ].
  - change (keeps graph_sessions
              (Orchestrator._summarize_and_update_mid_term_memory E sid)).
    unfold Orchestrator._summarize_and_update_mid_term_memory,
      RedisManager.get_recent_turns, SQLiteManager.get_summary,
      SQLiteManager.update_summary, RedisManager.trim_history,
      SQLiteManager._get_connection, ApiManager.get_provider.
    repeat first [ apply generate_response_keeps; reflexivity | keeps_step ].
  - change (keeps graph_messages
              (Orchestrator._summarize_and_update_mid_term_memory E sid)).
    unfold Orchestrator._summarize_and_update_mid_term_memory,
      RedisManager.get_recent_turns, SQLiteManager.get_summary,
      SQLiteManager.update_summary, RedisManager.trim_history,
      SQLiteManager._get_connection, ApiManager.get_provider.
    repeat first [ apply generate_response_keeps; reflexivity | keeps_step ].
Qed.
End SummaryOtherSession.

Lemma summarizer_is_scoped_witness :
  let E := env_up (Completion (Some "nuevo") []) toy_loads in
  let w := buffer_world 15 in
  let w' := snd (Orchestrator._summarize_and_update_mid_term_memory E "s" w) in
  session_slice "t" w' = session_slice "t" w
  /\ documents w' = documents w
  /\ graph_sessions w' = graph_sessions w
  /\ graph_messages w' = graph_messages w.
Proof.
  intros E w. apply (summarizer_is_scoped E "s" "t"). discriminate.
Defined.

(** ** A failed OpenAI call is read as an answer *)

Lemma generate_response_gpt35_pair E r pr h w :
  exists w1,
    Provider.generate_response E gpt35 r pr h w
    = (Ret (openai_message (api E gpt35 r),
            if truthy_prompt pr then h ++ [HUser pr] else h), w1)
    /\ turns w1 = turns w /\ summaries w1 = summaries w.
Proof.
  unfold Provider.generate_response. run_monad.
  destruct (api E gpt35 r) as [text tcs|[] msg]; simpl; by eexists.
Qed.

Lemma get_provider_gpt35_available E w :
  gpt35_available E w ->
  exists w1,
    ApiManager.get_provider E "openai" "gpt-3.5-turbo" w
    = (Ret (Some gpt35), w1)
    /\ turns w1 = turns w /\ summaries w1 = summaries w.
Proof.
  intros (Hreg & Hinit).
  destruct (get_provider_run E "openai" "gpt-3.5-turbo" w)
    as (o & w1 & Hrun & Ht & Hs & Ho).
  exists w1. split_and!; [|done..]. rewrite Hrun.
  rewrite (Ho OpenAIProvider); [done| |done].
  unfold ApiManager.providers. simpl. by rewrite Hreg.
Qed.

Lemma synthesize_run E snippets w :
  (exists s, fst (ContextEngine._synthesize_context_with_gpt E snippets w)
             = Ret s)
  /\ ContextEngine._synthesize_context_with_gpt E [] w = (Ret "", w).
Proof.
  split; [|reflexivity].
  unfold ContextEngine._synthesize_context_with_gpt.
  destruct snippets as [|s0 snippets]; [by eexists|].
  unfold bind at 1.
  destruct (get_provider_run E "openai" "gpt-3.5-turbo" w)
    as (o & w1 & -> & _).
  destruct o as [p|]; [|by eexists].
  unfold try_except, bind at 1.
  match goal with
  | |- context [Provider.generate_response E p ?r ?pr ?h w1] =>
      destruct (generate_response_run E p r pr h w1)
        as (resp & h' & w2 & -> & _)
  end.
  cbv beta iota. unfold bind at 1.
  destruct resp as [[text|] tcs|]; simpl; by eexists.
Qed.

(** X10. The context synthesis never raises, and without snippets it
    returns the empty text at once, without asking for a provider. *)
Theorem synthesize_never_raises E snippets w :
  (exists s, fst (ContextEngine._synthesize_context_with_gpt E snippets w)
             = Ret s)
  /\ ContextEngine._synthesize_context_with_gpt E [] w = (Ret "", w).
Proof. exact (synthesize_run E snippets w). Qed.

(** X11. When the OpenAI call of the synthesis fails, the synthesis does
    not come back empty: the provider has turned the failure into a message
    and the synthesis returns its text, "Error de OpenAI: ..." for an API
    error and "Error inesperado: ..." otherwise, as the synthesized
    context. *)
Theorem synthesize_returns_the_error_text E snippets w api_error msg :
  snippets <> [] ->
  gpt35_available E w ->
  api E gpt35 (Synthesis (PyStr.join PyStr.nl snippets))
  = ApiFails api_error msg ->
  fst (ContextEngine._synthesize_context_with_gpt E snippets w)
  = Ret (PyStr.strip
           ((if api_error then "Error de OpenAI: " else "Error inesperado: ")
            +:+ msg)).
Proof.
  intros Hne Havail Hapi.
  unfold ContextEngine._synthesize_context_with_gpt.
  destruct snippets as [|s0 snippets]; [done|].
  unfold bind at 1.
  destruct (get_provider_gpt35_available E w Havail) as (w1 & -> & _).
  cbv beta iota. unfold try_except, bind at 1.
  match goal with
  | |- context [Provider.generate_response E gpt35 ?r ?pr ?h w1] =>
      destruct (generate_response_gpt35_pair E r pr h w1) as (w2 & -> & _)
  end.
  rewrite Hapi. by destruct api_error.
Qed.

Lemma synthesize_returns_the_error_text_witness :
  fst (ContextEngine._synthesize_context_with_gpt
         (env_up (ApiFails true "timeout") toy_loads) ["uno"; "dos"]
         empty_world)
  = Ret (PyStr.strip ("Error de OpenAI: " +:+ "timeout")).
Proof.
  apply (synthesize_returns_the_error_text
           (env_up (ApiFails true "timeout") toy_loads) ["uno"; "dos"]
           empty_world true "timeout");
    [discriminate | by split; [|right] | reflexivity].
Defined.

(** X12. The same in the background summary: with the stores working and a
    buffer of [L > 10] turns, a failed OpenAI call is not treated as a
    failure; the error text is stored as the session's rolling summary with
    watermark [L], and the buffer is trimmed to its last 10 turns. *)
Theorem summarizer_stores_the_error_text E sid w api_error msg :
  let L := length (RedisManager.stored w sid) in
  let w' := snd (Orchestrator._summarize_and_update_mid_term_memory E sid w) in
  (10 < L)%nat ->
  gpt35_available E w ->
  summarizer_stores_ok E ->
  (forall previous conversation,
     api E gpt35 (Summarization previous conversation)
     = ApiFails api_error msg) ->
  summaries w' !! sid
  = Some (PyStr.strip
            ((if api_error then "Error de OpenAI: " else "Error inesperado: ")
             +:+ msg), L)
  /\ RedisManager.stored w' sid = drop (L - 10) (RedisManager.stored w sid).
Proof.
  intros L w' HL Havail (Hc & Hlr & Hcg & Hxg & Hcu & Hxu & Hlt) Hapi.
  subst w'.
  destruct (Orchestrator._summarize_and_update_mid_term_memory E sid w)
    as [r w'] eqn:Hrun. simpl. revert Hrun.
  unfold Orchestrator._summarize_and_update_mid_term_memory.
  unfold bind at 1.
  destruct (get_recent_turns_all_run E sid w)
    as (r1 & w1 & -> & Ht1 & Hs1 & Hl1 & _ & Hread).
  rewrite (Hread Hc Hlr). cbv beta iota. fold L.
  replace (Z.of_nat L - 10 <=? 0) with false
    by (symmetry; apply Z.leb_gt; lia).
  unfold bind at 1.
  destruct (get_summary_run E sid w1) as (r2 & w2 & -> & Ht2 & Hs2 & Hl2 & Hprev).
  rewrite (Hprev Hcg Hxg). cbv beta iota.
  unfold bind at 1.
  assert (Havail2 : gpt35_available E w2).
  { destruct Havail as [? ?]. split; [done|]. by rewrite Hl2, Hl1. }
  destruct (get_provider_gpt35_available E w2 Havail2) as (w3 & -> & Ht3 & Hs3).
  cbv beta iota. unfold try_except, bind at 1.
  match goal with
  | |- context [Provider.generate_response E gpt35 ?r ?pr ?h w3] =>
      destruct (generate_response_gpt35_pair E r pr h w3)
        as (w4 & -> & Ht4 & Hs4)
  end.
  rewrite Hapi. cbv beta iota.
  set (text := (if api_error then "Error de OpenAI: " else "Error inesperado: ")
               +:+ msg).
  assert (Hmsg : openai_message (ApiFails api_error msg)
                 = Message (Some text) []) by (by destruct api_error).
  rewrite Hmsg. unfold attr_content, method_strip, bind, ret, fst.
  cbv beta iota.
  destruct (update_summary_run E sid (PyStr.strip text) L w4)
    as (r5 & w5 & -> & Ht5 & _ & Hupd).
  destruct (Hupd Hcu Hxu) as [-> Hins].
  destruct (trim_history_run E sid w5) as (r6 & w6 & -> & Hs6 & Hkept).
  intros Hout.
  assert (w' = w6) as -> by (destruct r6; simpl in Hout; congruence).
  assert (Hst5 : RedisManager.stored w5 sid = RedisManager.stored w sid).
  { apply stored_congr. congruence. }
  split.
  - by rewrite Hs6, Hins, lookup_insert_eq.
  - rewrite Hst5 in Hkept. exact (Hkept Hc Hlt HL).
Qed.

Lemma summarizer_stores_the_error_text_witness :
  let E := env_up (ApiFails true "timeout") toy_loads in
  let w := buffer_world 12 in
  let w' := snd (Orchestrator._summarize_and_update_mid_term_memory E "s" w) in
  summaries w' !! "s"
  = Some (PyStr.strip ("Error de OpenAI: " +:+ "timeout"), 12%nat)
  /\ RedisManager.stored w' "s" = drop 2 (RedisManager.stored w "s").
Proof.
  intros E w.
  apply (summarizer_stores_the_error_text E "s" w true "timeout").
  - vm_compute. lia.
  - by split; [|right].
  - by repeat split.
  - reflexivity.
Defined.

(** ** Reading and trimming the recent-turn buffer *)

Lemma lrange_suffix {A} (l : list A) (k : nat) :
  RedisList.lrange l (- Z.of_nat k) (-1) `suffix_of` l
  /\ ((0 < k)%nat -> (length (RedisList.lrange l (- Z.of_nat k) (-1)) <= k)%nat).
Proof.
  destruct k as [|k].
  - change (- Z.of_nat 0) with 0. rewrite lrange_all. split; [done | lia].
  - rewrite lrange_last by lia. split; [apply suffix_drop|].
    intros _. rewrite length_drop. lia.
Qed.

Lemma get_recent_turns_suffix_run E sid (k : nat) w l :
  fst (RedisManager.get_recent_turns E sid (Z.of_nat k) w) = Ret l ->
  l `suffix_of` RedisManager.stored w sid
  /\ ((0 < k)%nat -> (length l <= k)%nat).
Proof.
  unfold RedisManager.get_recent_turns. run_monad.
  destruct (redis_client E); simpl.
  - destruct (fault E RedisLRange) as [e|]; simpl.
    + destruct (is_redis_error e); simpl; [|discriminate].
      intros [= <-]. split; [apply suffix_nil | simpl; lia].
    + intros [= <-].
      change (RedisManager.stored (World (turns w) _ _ _ _ _ _ _ _) sid)
        with (RedisManager.stored w sid).
      apply lrange_suffix.
  - intros [= <-]. split; [apply suffix_nil | simpl; lia].
Qed.

(** X13. [get_recent_turns] never returns more than it was asked for, and
    what it returns is the end of the stored buffer, in order: whenever it
    returns a list for [num_turns = k], the list is a suffix of the buffer
    and, for [k > 0], has at most [k] turns. *)
Theorem get_recent_turns_is_a_suffix E sid (k : nat) w l :
  fst (RedisManager.get_recent_turns E sid (Z.of_nat k) w) = Ret l ->
  l `suffix_of` RedisManager.stored w sid
  /\ ((0 < k)%nat -> (length l <= k)%nat).
Proof. exact (get_recent_turns_suffix_run E sid k w l). Qed.

Lemma get_recent_turns_is_a_suffix_witness :
  let E := env_up (Completion (Some "ok") []) toy_loads in
  let w := buffer_world 12 in
  replicate 3 (Turn "user" (Some "hola")) `suffix_of` RedisManager.stored w "s"
  /\ ((0 < 3)%nat ->
      (length (replicate 3 (Turn "user" (Some "hola"))) <= 3)%nat).
Proof.
  intros E w.
  apply (get_recent_turns_is_a_suffix E "s" 3 w). reflexivity.
Defined.

Lemma get_recent_turns_last_run E sid (k : nat) w :
  redis_client E = true ->
  fault E RedisLRange = None ->
  fst (RedisManager.get_recent_turns E sid (Z.of_nat k) w)
  = Ret (match k with
         | O => RedisManager.stored w sid
         | S _ => drop (length (RedisManager.stored w sid) - k)
                       (RedisManager.stored w sid)
         end).
Proof.
  intros Hc Hf. unfold RedisManager.get_recent_turns. run_monad.
  rewrite Hc, Hf. simpl.
  change (RedisManager.stored (World (turns w) _ _ _ _ _ _ _ _) sid)
    with (RedisManager.stored w sid).
  destruct k as [|k].
  - change (- Z.of_nat 0) with 0. by rewrite lrange_all.
  - by rewrite lrange_last by lia.
Qed.

(** X14. With Redis up and the read accepted, [get_recent_turns] returns
    the last [k] turns of the buffer (all of them when there are fewer) for
    [num_turns = k > 0], and the whole buffer for [num_turns = 0]: the
    range starts at index [-0], which is the head of the list. *)
Theorem get_recent_turns_returns_the_last E sid (k : nat) w :
  redis_client E = true ->
  fault E RedisLRange = None ->
  fst (RedisManager.get_recent_turns E sid (Z.of_nat k) w)
  = Ret (match k with
         | O => RedisManager.stored w sid
         | S _ => drop (length (RedisManager.stored w sid) - k)
                       (RedisManager.stored w sid)
         end).
Proof. exact (get_recent_turns_last_run E sid k w). Qed.

Lemma get_recent_turns_returns_the_last_witness :
  let E := env_up (Completion (Some "ok") []) toy_loads in
  fst (RedisManager.get_recent_turns E "s" (Z.of_nat 0) (buffer_world 12))
  = Ret (RedisManager.stored (buffer_world 12) "s").
Proof.
  intros E.
  apply (get_recent_turns_returns_the_last E "s" 0 (buffer_world 12));
    reflexivity.
Defined.

Lemma relevant_context_snippets_keeps_tiers E sid user_prompt :
  keeps tiers (ContextEngine.relevant_context_snippets E sid user_prompt).
Proof.
  unfold ContextEngine.relevant_context_snippets, ContextEngine.search_chroma,
    ContextEngine.search_neo4j, SQLiteManager.get_summary,
    SQLiteManager._get_connection, ChromaManager.search_similar,
    Neo4jManager.get_related_entities.
  repeat first [ apply extract_keeps_tiers | keeps_step ].
Qed.

(** X15. The conversation history that goes into the augmented prompt is
    the end of the session's buffer as it was when the request came in, and
    it never has more than 10 turns. *)
Theorem prompt_history_is_the_last_ten E sid user_prompt directives w ctx w' :
  ContextEngine.build_augmented_prompt E sid user_prompt directives w
  = (Ret ctx, w') ->
  history ctx `suffix_of` RedisManager.stored w sid
  /\ (length (history ctx) <= 10)%nat.
Proof.
  unfold ContextEngine.build_augmented_prompt.
  intros (se & w1 & H1 & Hrest)%bind_ret_inv.
  apply bind_ret_inv in Hrest as (final_context & w2 & H2 & Hrest).
  apply bind_ret_inv in Hrest as (hist & w3 & H3 & Hret).
  injection Hret as <- <-. simpl.
  assert (T1 : tiers w1 = tiers w).
  { pose proof (relevant_context_snippets_keeps_tiers E sid user_prompt w) as T.
    by rewrite H1 in T. }
  assert (T2 : tiers w2 = tiers w1).
  { destruct (ContextEngine.unique_snippets (fst se)) as [|s0 ss].
    - by injection H2 as <- <-.
    - apply bind_ret_inv in H2 as (synth & w2' & H2 & Hret).
      pose proof (synthesize_keeps_tiers E (s0 :: ss) w1) as T.
      rewrite H2 in T. simpl in T.
      destruct (PyStr.is_empty synth); injection Hret as <- <-; exact T. }
  destruct (get_recent_turns_suffix_run E sid 10 w2 hist) as [Hsuf Hlen].
  { change (Z.of_nat 10) with 10. by rewrite H3. }
  rewrite (stored_congr w w2 sid) in Hsuf.
  - split; [done | apply Hlen; lia].
  - apply tiers_turns. congruence.
Qed.

Lemma prompt_history_is_the_last_ten_witness :
  let E := env_up (Completion (Some "[]") []) toy_loads in
  let r := ContextEngine.build_augmented_prompt E "s" "hola" None
             (buffer_world 12) in
  replicate 10 (Turn "user" (Some "hola"))
    `suffix_of` RedisManager.stored (buffer_world 12) "s"
  /\ (length (replicate 10 (Turn "user" (Some "hola"))) <= 10)%nat.
Proof.
  intros E r.
  apply (prompt_history_is_the_last_ten E "s" "hola" None (buffer_world 12)
           (Augmented
              (PyStr.join PyStr.nl
                 ["Eres Quimera, un asistente de IA avanzado.";
                  "Responde de manera útil y coherente..."])
              (replicate 10 (Turn "user" (Some "hola"))) [] [])
           (snd r)).
  vm_compute. reflexivity.
Defined.

(** X16. What [trim_history] keeps: with Redis up and the trim accepted,
    the buffer is left with its last [k] turns (all of them when there are
    fewer), for every [max_len = k > 0]; trimming again changes nothing. *)
Theorem trim_history_keeps_the_last E sid (k : nat) w :
  redis_client E = true ->
  fault E RedisLTrim = None ->
  (0 < k)%nat ->
  let w1 := snd (RedisManager.trim_history E sid (Z.of_nat k) w) in
  let w2 := snd (RedisManager.trim_history E sid (Z.of_nat k) w1) in
  RedisManager.stored w1 sid
  = drop (length (RedisManager.stored w sid) - k) (RedisManager.stored w sid)
  /\ (length (RedisManager.stored w1 sid) <= k)%nat
  /\ RedisManager.stored w2 sid = RedisManager.stored w1 sid.
Proof.
  intros Hc Hf Hk.
  assert (Hone : forall w0,
    RedisManager.stored
      (snd (RedisManager.trim_history E sid (Z.of_nat k) w0)) sid
    = drop (length (RedisManager.stored w0 sid) - k)
           (RedisManager.stored w0 sid)).
  { intros w0. unfold RedisManager.trim_history. run_monad. run_stores.
    rewrite Hc, Hf. simpl. unfold RedisList.ltrim.
    change (RedisManager.stored (World (turns w0) _ _ _ _ _ _ _ _) sid)
      with (RedisManager.stored w0 sid).
    rewrite !lrange_last by lia.
    destruct (drop (length (RedisManager.stored w0 sid) - k)
                (RedisManager.stored w0 sid)) as [|t kept] eqn:Hd.
    - unfold RedisManager.stored at 1. simpl. by rewrite lookup_delete_eq.
    - unfold RedisManager.stored at 1. simpl. by rewrite lookup_insert_eq. }
  intros w1 w2. subst w1 w2. rewrite !Hone.
  split_and!; [done | rewrite length_drop; lia|].
  rewrite length_drop.
  replace (length (RedisManager.stored w sid)
           - (length (RedisManager.stored w sid) - k) - k)%nat
    with 0%nat by lia.
  reflexivity.
Qed.

Lemma trim_history_keeps_the_last_witness :
  let E := env_up (Completion (Some "ok") []) toy_loads in
  let w := buffer_world 12 in
  let w1 := snd (RedisManager.trim_history E "s" (Z.of_nat 4) w) in
  let w2 := snd (RedisManager.trim_history E "s" (Z.of_nat 4) w1) in
  RedisManager.stored w1 "s"
  = drop (length (RedisManager.stored w "s") - 4) (RedisManager.stored w "s")
  /\ (length (RedisManager.stored w1 "s") <= 4)%nat
  /\ RedisManager.stored w2 "s" = RedisManager.stored w1 "s".
Proof.
  intros E w.
  apply (trim_history_keeps_the_last E "s" 4 w); [reflexivity..|lia].
Defined.

(** ** Round trips through the stores *)

(** X17. A summary written with [update_summary] is the one
    [get_summary] reads back, with its watermark, when SQLite accepts both
    calls; it replaces what was stored for the session, and the summaries of
    the other sessions are not touched. *)
Theorem summary_round_trip E sid summary turn_count w :
  fault E (SqlConnect MUpdateSummary) = None ->
  fault E (SqlExecute MUpdateSummary) = None ->
  fault E (SqlConnect MGetSummary) = None ->
  fault E (SqlExecute MGetSummary) = None ->
  let w1 := snd (SQLiteManager.update_summary E sid summary turn_count w) in
  fst (SQLiteManager.get_summary E sid w1) = Ret (Some (summary, turn_count))
  /\ forall other, other <> sid ->
       fst (SQLiteManager.get_summary E other w1) = Ret (summaries w !! other).
Proof.
  intros Hcu Hxu Hcg Hxg w1. subst w1.
  destruct (update_summary_run E sid summary turn_count w)
    as (r & w1 & Hrun & _ & _ & Hupd).
  destruct (Hupd Hcu Hxu) as [_ Hins]. rewrite Hrun. simpl. split.
  - destruct (get_summary_run E sid w1) as (r2 & w2 & -> & _ & _ & _ & Hget).
    simpl. by rewrite (Hget Hcg Hxg), Hins, lookup_insert_eq.
  - intros other Hne.
    destruct (get_summary_run E other w1) as (r2 & w2 & -> & _ & _ & _ & Hget).
    simpl. by rewrite (Hget Hcg Hxg), Hins, lookup_insert_ne.
Qed.

Lemma summary_round_trip_witness :
  let E := env_up (Completion (Some "ok") []) toy_loads in
  let w1 := snd (SQLiteManager.update_summary E "s" "nuevo" 14
                   (session_world [] 12)) in
  fst (SQLiteManager.get_summary E "s" w1) = Ret (Some ("nuevo", 14%nat))
  /\ forall other, other <> "s" ->
       fst (SQLiteManager.get_summary E other w1)
       = Ret (summaries (session_world [] 12) !! other).
Proof.
  intros E.
  apply (summary_round_trip E "s" "nuevo" 14 (session_world [] 12));
    reflexivity.
Defined.

(** X18. A turn pushed with [add_turn] is the last turn of the buffer: with
    Redis up and both commands accepted, reading one recent turn right
    after gives exactly that turn. *)
Theorem add_turn_round_trip E sid t w :
  redis_client E = true ->
  fault E (RedisRPush t) = None ->
  fault E RedisLRange = None ->
  fst (RedisManager.get_recent_turns E sid 1
         (snd (RedisManager.add_turn E sid t w)))
  = Ret [t].
Proof.
  intros Hc Hp Hr.
  destruct (add_turn_run E sid t w Hc Hp) as (w1 & -> & T1). simpl.
  change 1 with (Z.of_nat 1).
  rewrite get_recent_turns_last_run by done.
  unfold RedisManager.stored. rewrite T1, lookup_insert_eq. simpl.
  f_equal. rewrite length_app. simpl.
  fold (RedisManager.stored w sid).
  replace (length (RedisManager.stored w sid) + 1 - 1)%nat
    with (length (RedisManager.stored w sid)) by lia.
  by rewrite drop_app_length.
Qed.

Lemma add_turn_round_trip_witness :
  let E := env_up (Completion (Some "ok") []) toy_loads in
  fst (RedisManager.get_recent_turns E "s" 1
         (snd (RedisManager.add_turn E "s" (Turn "user" (Some "otra"))
                 (buffer_world 3))))
  = Ret [Turn "user" (Some "otra")].
Proof.
  intros E.
  apply (add_turn_round_trip E "s" (Turn "user" (Some "otra")) (buffer_world 3));
    reflexivity.
Defined.

(** ** The tool pass of the request handler *)




(** ** The provider factory *)

(** X20. The factory keeps one instance per (provider, model): when
    [get_provider] returns an instance, its key is in the cache, the cache
    has grown by that key at most and holds no key twice; and asking again
    for the same provider and model returns the same instance without
    building one, so also when building one would now fail, and leaves the
    cache as it is. *)
Theorem get_provider_reuses_the_instance E name model w inst :
  NoDup (loaded_instances w) ->
  fst (ApiManager.get_provider E name model w) = Ret (Some inst) ->
  let w' := snd (ApiManager.get_provider E name model w) in
  NoDup (loaded_instances w')
  /\ (name, model) ∈ loaded_instances w'
  /\ (loaded_instances w' = loaded_instances w
      \/ loaded_instances w' = loaded_instances w ++ [(name, model)])
  /\ forall E', registered E' = registered E ->
       fst (ApiManager.get_provider E' name model w') = Ret (Some inst)
       /\ loaded_instances (snd (ApiManager.get_provider E' name model w'))
          = loaded_instances w'.
Proof.
  intros Hnd. unfold ApiManager.get_provider at 1 2. run_monad. run_stores.
  destruct (ApiManager.providers E name) as [cls|] eqn:Hcls; simpl;
    [|discriminate].
  assert (Hagain : forall E' w0, registered E' = registered E ->
    (name, model) ∈ loaded_instances w0 ->
    fst (ApiManager.get_provider E' name model w0) = Ret (Some (cls, model))
    /\ loaded_instances (snd (ApiManager.get_provider E' name model w0))
       = loaded_instances w0).
  { intros E' w0 Hreg Hin. unfold ApiManager.get_provider. run_monad.
    assert (ApiManager.providers E' name = Some cls) as ->.
    { revert Hcls. unfold ApiManager.providers. by rewrite Hreg. }
    simpl. by rewrite bool_decide_true. }
  case_bool_decide as Hin; simpl.
  - intros [= <-]. split_and!; [done|done|by left|].
    intros E' Hreg.
    match goal with
    | |- context [ApiManager.get_provider E' name model ?w0] =>
        destruct (Hagain E' w0 Hreg Hin) as [H1 H2]
    end.
    split; [exact H1 | exact H2].
  - destruct (provider_init E cls); simpl; [discriminate|].
    intros [= <-]. split_and!.
    + apply NoDup_app. split_and!; [done| |apply NoDup_singleton].
      intros x Hx ->%list_elem_of_singleton. done.
    + apply elem_of_app. right. by apply list_elem_of_singleton.
    + by right.
    + intros E' Hreg.
      match goal with
      | |- context [ApiManager.get_provider E' name model ?w0] =>
          destruct (Hagain E' w0 Hreg) as [H1 H2]
      end.
      { simpl. apply elem_of_app. right. by apply list_elem_of_singleton. }
      split; [exact H1 | exact H2].
Qed.

Lemma get_provider_reuses_the_instance_witness :
  let E := env_up (Completion (Some "ok") []) toy_loads in
  let w' := snd (ApiManager.get_provider E "openai" "gpt-4o" empty_world) in
  NoDup (loaded_instances w')
  /\ ("openai", "gpt-4o") ∈ loaded_instances w'
  /\ (loaded_instances w' = loaded_instances empty_world
      \/ loaded_instances w'
         = loaded_instances empty_world ++ [("openai", "gpt-4o")])
  /\ forall E', registered E' = registered E ->
       fst (ApiManager.get_provider E' "openai" "gpt-4o" w')
       = Ret (Some (OpenAIProvider, "gpt-4o"))
       /\ loaded_instances (snd (ApiManager.get_provider E' "openai" "gpt-4o" w'))
          = loaded_instances w'.
Proof.
  intros E.
  apply (get_provider_reuses_the_instance E "openai" "gpt-4o" empty_world
           (OpenAIProvider, "gpt-4o")).
  - apply NoDup_nil_2.
  - reflexivity.
Defined.

(** ** The entity extractor on a well-formed answer *)

(** X21. When the internal model is available and answers with a text
    that, without its surrounding white space, begins with "[" and decodes
    to a JSON list of strings, the extractor returns exactly these strings,
    in their order. *)
Theorem extractor_returns_the_strings E text w content tool_calls names :
  gpt35_available E w ->
  api E gpt35 (Extraction text) = Completion (Some content) tool_calls ->
  PyStr.startswith_char "[" (PyStr.strip content) = true ->
  json_loads E (PyStr.strip content) = Some (JArray (map JString names)) ->
  fst (ContextEngine._extract_entities_with_gpt E text w) = Ret names.
Proof.
  intros Hav Hapi Hopen Hloads.
  unfold ContextEngine._extract_entities_with_gpt.
  destruct (get_provider_gpt35_available E w Hav) as (w1 & Hp & _).
  unfold bind at 1. rewrite Hp. simpl.
  destruct (generate_response_gpt35_pair E (Extraction text)
              (Template (Extraction text)) [] w1) as (w2 & Hg & _).
  unfold try_except, bind. rewrite Hg, Hapi. simpl.
  unfold method_strip, ret. simpl.
  assert (PyStr.is_empty (PyStr.strip content) = false) as ->.
  { by destruct (PyStr.strip content). }
  rewrite Hopen, Hloads. simpl.
  assert (forallb is_json_string (map JString names) = true) as ->.
  { clear. induction names as [|n names IH]; simpl; [done | exact IH]. }
  simpl. f_equal. clear. induction names as [|n names IH]; [done|].
  change (n :: omap json_string (map JString names) = n :: names).
  by f_equal.
Qed.

Lemma extractor_returns_the_strings_witness :
  fst (ContextEngine._extract_entities_with_gpt
         (env_up (Completion (Some (" " +:+ redis_entities_json)) [])
            entities_loads)
         "hola" empty_world)
  = Ret ["redis"].
Proof.
  apply (extractor_returns_the_strings
           (env_up (Completion (Some (" " +:+ redis_entities_json)) [])
              entities_loads)
           "hola" empty_world (" " +:+ redis_entities_json) [] ["redis"]).
  - split; [reflexivity | right; reflexivity].
  - reflexivity.
  - vm_compute. reflexivity.
  - vm_compute. reflexivity.
Defined.

(** ** Bounds on what the long-term searches add *)

Lemma len_take_le n s : (PyStr.len (PyStr.take n s) <= n)%nat.
Proof.
  unfold PyStr.len. revert s.
  induction n as [|n IH]; intros [|c s]; simpl; try lia.
  specialize (IH s). lia.
Qed.

Lemma len_append s1 s2 :
  PyStr.len (s1 +:+ s2) = (PyStr.len s1 + PyStr.len s2)%nat.
Proof.
  unfold PyStr.len. induction s1 as [|c s1 IH]; simpl; [done|].
  by rewrite IH.
Qed.

Lemma truncated_results_bound docs :
  length (ContextEngine.truncated_results docs) = length docs
  /\ Forall (fun s => (PyStr.len s <= 303)%nat)
       (ContextEngine.truncated_results docs).
Proof.
  unfold ContextEngine.truncated_results. split; [by rewrite length_map|].
  apply Forall_map, Forall_forall. intros doc _. cbv beta.
  destruct (300 <? PyStr.len doc)%nat eqn:Hlen.
  - rewrite len_append. pose proof (len_take_le 300 doc) as Htake.
    change (PyStr.len "...") with 3%nat.
    revert Htake. generalize (PyStr.len (PyStr.take 300 doc)). lia.
  - apply Nat.ltb_ge in Hlen. revert Hlen. generalize (PyStr.len doc). lia.
Qed.

(** X22. The similarity search never raises, keeps the candidates it was
    given in front, and adds at most five snippets per entity, none of them
    longer than 303 characters. *)
Theorem similarity_search_is_bounded E sid names snippets w :
  exists added,
    fst (ContextEngine.search_chroma E sid names snippets w)
    = Ret (snippets ++ added)
    /\ (length added <= 5 * length names)%nat
    /\ Forall (fun s => (PyStr.len s <= 303)%nat) added.
Proof.
  destruct (search_chroma_run E sid names snippets w) as (w' & ->).
  eexists. split; [reflexivity|]. clear w' w snippets.
  induction names as [|e names [IHl IHf]]; simpl; [by split|].
  destruct (truncated_results_bound (similarity_hits E e)) as [Hl Hf].
  assert (length (similarity_hits E e) <= 5)%nat.
  { unfold similarity_hits. repeat case_match; simpl; try lia.
    rewrite length_take. lia. }
  split.
  - rewrite length_app. lia.
  - by apply Forall_app.
Qed.

Lemma get_related_entities_run E e sid n w :
  exists l w',
    Neo4jManager.get_related_entities E e sid n w = (Ret l, w')
    /\ tiers w' = tiers w.
Proof.
  unfold Neo4jManager.get_related_entities. run_monad.
  destruct (neo4j_driver E); simpl; [|by eexists _, _].
  destruct (fault E (NeoQuery e)); simpl; by eexists _, _.
Qed.

Lemma search_neo4j_run E sid names snippets w :
  exists r w',
    ContextEngine.search_neo4j E sid names snippets w = (Ret r, w')
    /\ (r = snippets \/ exists s, r = snippets ++ [s])
    /\ (neo4j_manager E = false -> r = snippets)
    /\ tiers w' = tiers w.
Proof.
  unfold ContextEngine.search_neo4j.
  destruct (neo4j_manager E); [|eexists _, _; split_and!; by eauto].
  assert (Hloop : forall parts w0, exists parts' w1,
    for_each names parts (fun parts entity_name =>
        related_concepts <-
          Neo4jManager.get_related_entities E entity_name sid 5 ;;
        match related_concepts with
        | [] => ret parts
        | _ =>
            ret (parts ++
                 ["Sobre el concepto '" +:+ entity_name
                  +:+ "', el sistema también conoce estos temas relacionados: "
                  +:+ PyStr.join ", " related_concepts +:+ "."])
        end) w0 = (Ret parts', w1) /\ tiers w1 = tiers w0).
  { induction names as [|e names IH]; intros parts w0; simpl.
    - by eexists _, _.
    - destruct (get_related_entities_run E e sid 5 w0) as (l & w1 & Hl & Ht).
      unfold bind at 1. unfold bind at 1. rewrite Hl.
      destruct l as [|c l]; simpl.
      + destruct (IH parts w1) as (p' & w2 & -> & Ht2).
        eexists _, _. split; [done|congruence].
      + unfold ret at 1. simpl.
        edestruct IH as (p' & w2 & -> & Ht2).
        eexists _, _. split; [done|congruence]. }
  destruct (Hloop [] w) as (parts & w1 & Hrun & Ht).
  lazy iota beta. unfold bind at 1. rewrite Hrun.
  destruct parts; simpl; eexists _, _; split_and!; eauto; discriminate.
Qed.

(** X23. The graph search never raises, keeps the candidates it was given,
    adds at most one snippet, whatever the number of entities, and none at
    all when there is no Neo4j manager; it leaves the memory tiers as they
    are. *)
Theorem graph_search_adds_one_snippet E sid names snippets w :
  exists r w',
    ContextEngine.search_neo4j E sid names snippets w = (Ret r, w')
    /\ (r = snippets \/ exists s, r = snippets ++ [s])
    /\ (neo4j_manager E = false -> r = snippets)
    /\ tiers w' = tiers w.
Proof. exact (search_neo4j_run E sid names snippets w). Qed.

(** ** A failing OpenAI call in the request handler *)

Section Returns.
Lemma returns_bind {A B} (m : M A) (k : A -> M B) :
  returns m -> (forall a, returns (k a)) -> returns (bind m k).
Proof.
  intros Hm Hk w. unfold bind. destruct (Hm w) as [a Ha].
  destruct (m w) as [r w1]. simpl in Ha. subst r. apply Hk.
Qed.

Lemma returns_try_except {A} (m : M A) caught (h : exn -> M A) :
  returns m -> returns (try_except m caught h).
Proof.
  intros Hm w. unfold try_except. destruct (Hm w) as [a Ha].
  destruct (m w) as [r w1]. simpl in Ha. subst r. by exists a.
Qed.

Lemma returns_for_each {A B} (xs : list A) (acc : B) body :
  (forall b a, returns (body b a)) -> returns (for_each xs acc body).
Proof.
  intros Hb. revert acc. induction xs as [|x xs IH]; intros acc; simpl.
  - intros w. by eexists.
  - apply returns_bind; [apply Hb | intros; apply IH].
Qed.

Lemma returns_backend E s : fault E s = None -> returns (backend E s).
Proof. intros Hf w. unfold backend. rewrite Hf. by eexists. Qed.
End Returns.

Ltac returns_step :=
  first
    [ apply returns_bind | apply returns_try_except
    | apply returns_for_each | apply returns_backend; solve [auto]
    | progress intros
    | match goal with
      | |- returns (if ?b then _ else _) => destruct b
      | |- returns (match ?x with _ => _ end) => destruct x
      end
    | solve [intros ?; by eexists] ].

Lemma extract_returns E text :
  returns (ContextEngine._extract_entities_with_gpt E text).
Proof. intros w. apply extract_never_raises. Qed.

Lemma synthesize_returns E snippets :
  returns (ContextEngine._synthesize_context_with_gpt E snippets).
Proof. intros w. apply synthesize_run. Qed.

Lemma search_chroma_returns E sid names snippets :
  returns (ContextEngine.search_chroma E sid names snippets).
Proof.
  intros w. destruct (search_chroma_run E sid names snippets w) as (w' & ->).
  by eexists.
Qed.

Lemma search_neo4j_returns E sid names snippets :
  returns (ContextEngine.search_neo4j E sid names snippets).
Proof.
  intros w.
  destruct (search_neo4j_run E sid names snippets w) as (r & w' & -> & _).
  by eexists.
Qed.

Lemma build_augmented_prompt_returns E sid user_prompt directives :
  (forall s, fault E s = None) ->
  returns (ContextEngine.build_augmented_prompt E sid user_prompt directives).
Proof.
  intros Hf.
  unfold ContextEngine.build_augmented_prompt,
    ContextEngine.relevant_context_snippets,
    SQLiteManager.get_summary, SQLiteManager._get_connection,
    RedisManager.get_recent_turns.
  repeat first [ apply extract_returns | apply synthesize_returns
               | apply search_chroma_returns | apply search_neo4j_returns
               | returns_step ].
Qed.

Lemma save_turn_returns E sid user_prompt text uid aid ents :
  (forall s, fault E s = None) ->
  returns (ContextEngine.save_turn E sid user_prompt text uid aid ents).
Proof.
  intros Hf.
  unfold ContextEngine.save_turn, RedisManager.add_turn,
    ChromaManager.add_entry, Neo4jManager.add_message_and_entities.
  repeat first [ apply extract_returns | returns_step ].
Qed.

Lemma generate_response_openai E model r pr h w :
  exists w1,
    Provider.generate_response E (OpenAIProvider, model) r pr h w
    = (Ret (openai_message (api E (OpenAIProvider, model) r),
            if truthy_prompt pr then h ++ [HUser pr] else h), w1).
Proof.
  unfold Provider.generate_response. run_monad.
  destruct (api E (OpenAIProvider, model) r) as [text tcs|[] msg]; simpl;
    by eexists.
Qed.

Lemma tool_loop_without_calls E fuel p n text h w :
  Orchestrator.tool_loop E fuel p n (Some (Message text [])) h w
  = (Ret (Some (Message text [])), w).
Proof. by destruct fuel. Qed.

(** X24. When the chat call to OpenAI fails, the request is answered like
    any other: with the stores up and no backend call raising, the error
    text of the provider ("Error de OpenAI: ..." for an API error, "Error
    inesperado: ..." otherwise) is the response of the request, and it is
    stored in the buffer as the assistant's turn, after the user's. *)
Theorem openai_failure_is_the_answer
    E fuel sid user_prompt llm_settings w api_error msg :
  provider_name llm_settings = "openai" ->
  registered E OpenAIProvider = true ->
  provider_init E OpenAIProvider = None ->
  redis_client E = true ->
  (forall s, fault E s = None) ->
  api E (OpenAIProvider, model_name llm_settings) (Chat 0)
  = ApiFails api_error msg ->
  let text :=
    (if api_error then "Error de OpenAI: " else "Error inesperado: ")
    +:+ msg in
  let r := Orchestrator.handle_user_request E fuel sid user_prompt
             llm_settings w in
  fst r = Ret (ResponseReply (Some text)
                 (9 <=? length (RedisManager.stored w sid))%nat)
  /\ RedisManager.stored (snd r) sid
     = RedisManager.stored w sid
       ++ [Turn "user" (Some user_prompt); Turn "assistant" (Some text)].
Proof.
  intros Hname Hreg Hinit Hc Hf Hapi text r.
  assert (Hrun : exists scheduled w',
    Orchestrator.handle_user_request E fuel sid user_prompt llm_settings w
    = (Ret (ResponseReply (Some text) scheduled), w')).
  { unfold Orchestrator.handle_user_request, Orchestrator.update_llm_settings.
    unfold bind at 1. unfold set_config at 1. cbv beta iota.
    set (w0 := World _ _ _ _ _ _ _ llm_settings _).
    assert (C0 : config w0 = llm_settings) by reflexivity. clearbody w0.
    unfold bind at 1.
    assert (C1 : config (snd (ContextEngine.build_augmented_prompt E sid
                                user_prompt (intent E user_prompt) w0))
                 = config w0).
    { generalize w0.
      change (keeps config (ContextEngine.build_augmented_prompt E sid
                              user_prompt (intent E user_prompt))).
      handler_frame. }
    destruct (build_augmented_prompt_returns E sid user_prompt
                (intent E user_prompt) Hf w0) as (ctx & Hctx).
    destruct (ContextEngine.build_augmented_prompt E sid user_prompt _ w0)
      as [r1 w1]. simpl in Hctx, C1. subst r1.
    unfold bind at 1. unfold get_world at 1. cbv beta iota.
    unfold bind at 1. rewrite C1, C0, Hname.
    destruct (get_provider_run E "openai" (model_name llm_settings) w1)
      as (o & w2 & -> & _ & _ & Ho).
    rewrite (Ho OpenAIProvider);
      [|unfold ApiManager.providers; simpl; by rewrite Hreg|by right].
    cbv beta iota. unfold bind at 1.
    match goal with
    | |- context [Provider.generate_response E ?p ?rq ?pr ?h w2] =>
        destruct (generate_response_openai E (model_name llm_settings) rq pr
                    h w2) as (w3 & ->)
    end.
    rewrite Hapi. cbv beta iota. unfold fst at 1, snd at 1.
    assert (openai_message (ApiFails api_error msg) = Message (Some text) [])
      as -> by (subst text; by destruct api_error).
    unfold bind at 1. rewrite tool_loop_without_calls.
    cbv beta iota. unfold bind at 1. unfold attr_content, ret at 1.
    cbv beta iota. unfold bind at 1.
    match goal with
    | |- context [ContextEngine.save_turn E sid user_prompt ?t ?u ?a ?e w3] =>
        destruct (save_turn_returns E sid user_prompt t u a e Hf w3)
          as ([] & Hs);
        destruct (ContextEngine.save_turn E sid user_prompt t u a e w3)
          as [r4 w4]
    end.
    simpl in Hs. subst r4. cbv beta iota.
    unfold RedisManager.client_llen. run_monad.
    rewrite Hc, (Hf RedisLLenCmd). simpl. by eexists _, _. }
  destruct Hrun as (scheduled & w' & Hrun).
  destruct (handle_user_request_buffer_run E fuel sid user_prompt llm_settings
              w (Some text) scheduled w' Hrun (Hf _) (Hf _)) as [Hst Hsch].
  subst r. rewrite Hrun. simpl. split; [by rewrite Hsch | exact Hst].
Qed.

Lemma openai_failure_is_the_answer_witness :
  let E := env_up (ApiFails true "timeout") toy_loads in
  let r := Orchestrator.handle_user_request E 0 "s" "hola"
             (LLMConfig "openai" "gpt-4o-mini" "0.7" 1500) (buffer_world 9) in
  fst r = Ret (ResponseReply (Some ("Error de OpenAI: " +:+ "timeout"))
                 (9 <=? length (RedisManager.stored (buffer_world 9) "s"))%nat)
  /\ RedisManager.stored (snd r) "s"
     = RedisManager.stored (buffer_world 9) "s"
       ++ [Turn "user" (Some "hola");
           Turn "assistant" (Some ("Error de OpenAI: " +:+ "timeout"))].
Proof.
  intros E.
  apply (openai_failure_is_the_answer E 0 "s" "hola"
           (LLMConfig "openai" "gpt-4o-mini" "0.7" 1500) (buffer_world 9)
           true "timeout"); reflexivity.
Defined.

(** ** The interaction separator of the log *)

Lemma filter_untraced r last :
  untraced r = true ->
  Logger.filter r last = (Logger.Filtered true (Some Logger.na) false, last).
Proof.
  unfold untraced. intros [H|H]%orb_true_iff; apply bool_decide_eq_true in H;
    by subst r.
Qed.

Lemma filter_carries t last :
  t <> Logger.na ->
  Logger.filter (Some (Some t)) last
  = (Logger.Filtered true (Some t) (negb (bool_decide (last = Some t))),
     Some t).
Proof.
  intros Ht. unfold Logger.filter. simpl.
  rewrite (bool_decide_false (Some t = Some Logger.na)) by congruence.
  simpl. case_bool_decide as H1; case_bool_decide as H2; simpl;
    congruence.
Qed.

(** X25. The separator of interactions in the log. When all the records of
    a run that carry a trace id carry the same one, whatever the number of
    records in between that have no [trace_id] attribute or have "N/A", the
    filter marks at most one record as the start of an interaction: exactly
    one when a record carries the trace id and it is not the one the filter
    saw last, none otherwise; no record is dropped, and afterwards the
    filter remembers the trace id if a record carried it. A record whose
    [trace_id] is [None] is not such a record: after a record with a trace
    id it is itself marked as the start of an interaction and makes the
    filter forget the trace id, so that the next record of the same
    interaction is marked again. *)
Theorem one_separator_per_interaction t records last :
  t <> Logger.na ->
  Forall (fun r => carries t r || untraced r = true) records ->
  let out := fst (Logger.filter_all records last) in
  let opens := existsb (carries t) records
               && negb (bool_decide (last = Some t)) in
  (length (List.filter Logger.new_trace out) = (if opens then 1 else 0)%nat
   /\ map Logger.passes out = replicate (length records) true
   /\ snd (Logger.filter_all records last)
      = if existsb (carries t) records then Some t else last)
  /\ map Logger.new_trace
       (fst (Logger.filter_all [Some (Some t); Some None; Some (Some t)]
               (Some t)))
     = [false; true; true].
Proof.
  intros Ht Hall. split.
  - revert last.
    induction Hall as [|r records Hr _ IH]; intros last; [done|].
    cbn [Logger.filter_all existsb].
    apply orb_true_iff in Hr as [Hr|Hr].
    + pose proof Hr as Hc. apply bool_decide_eq_true in Hr. subst r.
      rewrite (filter_carries t last Ht).
      specialize (IH (Some t)). cbv zeta in IH.
      destruct (Logger.filter_all records (Some t)) as [fs last''].
      simpl in IH. destruct IH as (IH1 & IH2 & IH3).
      rewrite Hc. simpl. rewrite IH2.
      rewrite bool_decide_true in IH1 by done.
      rewrite andb_false_r in IH1.
      split_and!; [|done|].
      * by destruct (bool_decide (last = Some t)); simpl; rewrite IH1.
      * rewrite IH3. by destruct (existsb (carries t) records).
    + rewrite (filter_untraced r last Hr).
      assert (carries t r = false) as ->.
      { unfold carries, untraced in *. apply bool_decide_eq_false. intros ->.
        apply orb_true_iff in Hr as [Hr|Hr]; apply bool_decide_eq_true in Hr;
          congruence. }
      specialize (IH last). cbv zeta in IH.
      destruct (Logger.filter_all records last) as [fs last''].
      simpl in *. destruct IH as (IH1 & IH2 & IH3).
      by rewrite IH2.
  - cbn [Logger.filter_all]. rewrite (filter_carries t (Some t) Ht).
    rewrite bool_decide_true by done.
    assert (Logger.filter (Some None) (Some t)
            = (Logger.Filtered true None true, None)) as -> by reflexivity.
    rewrite (filter_carries t None Ht).
    rewrite bool_decide_false by done. reflexivity.
Qed.

Lemma one_separator_per_interaction_witness :
  let records :=
    [None; Some (Some "t1"); None; Some (Some "t1"); Some (Some Logger.na);
     Some (Some "t1")] in
  let out := fst (Logger.filter_all records None) in
  let opens := existsb (carries "t1") records
               && negb (bool_decide (None = Some "t1")) in
  (length (List.filter Logger.new_trace out) = (if opens then 1 else 0)%nat
   /\ map Logger.passes out = replicate (length records) true
   /\ snd (Logger.filter_all records None)
      = if existsb (carries "t1") records then Some "t1" else None)
  /\ map Logger.new_trace
       (fst (Logger.filter_all
               [Some (Some "t1"); Some None; Some (Some "t1")] (Some "t1")))
     = [false; true; true].
Proof.
  intros records.
  apply (one_separator_per_interaction "t1" records None).
  - discriminate.
  - repeat constructor.
Defined.
